(** * FastAPI user backend: a shallow embedding of [app/config.py],
      [app/server.py] and [app/router/user/router.py]

    The request handlers of the router are written in a small state and
    exception monad over the database session.  ORM objects live in a store
    of objects addressed by references, so that the in-place attribute
    assignments of [update_user] are assignments to a shared object.  Every
    call that leaves the router (to [UserService], to [AuthUtil]) is recorded
    in a trace, and so is the moment the framework enters an endpoint
    function.  [add_user] ([POST /user/]), which constructs a new model
    instance, is not part of the development. *)

From Stdlib Require Import ZArith Ascii String DecimalString.
From stdpp Require Import base option list gmap strings.

Local Open Scope Z_scope.
Local Open Scope string_scope.

(** ** Python values and truth testing *)

(** Python's truth protocol: [bool(x)], as used by [if not x] and [x or y]. *)
Class Truthy (A : Type) := truthy : A → bool.

#[global] Instance str_truthy : Truthy string :=
  λ s, match s with EmptyString => false | String _ _ => true end.
#[global] Instance bool_truthy : Truthy bool := λ b, b.
#[global] Instance int_truthy : Truthy Z := λ n, negb (Z.eqb n 0).
#[global] Instance list_truthy {A} : Truthy (list A) :=
  λ l, match l with [] => false | _ :: _ => true end.
#[global] Instance option_truthy {A} `{Truthy A} : Truthy (option A) :=
  λ o, match o with None => false | Some a => truthy a end.

(** References to ORM objects held by the database session. *)
Definition loc := nat.

(** A model instance defines neither [__bool__] nor [__len__]: it is true. *)
Inductive ref := Ref (l : loc).
#[global] Instance ref_truthy : Truthy ref := λ _, true.

Definition UUID := N.

(** What the router passes as [uuid=] to [UserService.get_users]: the
    [int] path parameter of [update_user], the [UUID] one of [delete_user]. *)
Inductive ident :=
| IdInt (n : Z)
| IdUuid (u : UUID).

(** The values a service method can hand back: [None], a bool, an int, a
    string, a model instance, or a list of model instances. *)
Inductive pyval :=
| PyNone
| PyBool (b : bool)
| PyInt (n : Z)
| PyStr (s : string)
| PyObj (r : ref)
| PyList (rs : list ref).

#[global] Instance pyval_truthy : Truthy pyval :=
  λ v, match v with
       | PyNone => false
       | PyBool b => truthy b
       | PyInt n => truthy n
       | PyStr s => truthy s
       | PyObj r => truthy r
       | PyList rs => truthy rs
       end.

(** ** Data model ([app.database.user.model], known by its fields) *)

Module UserModel.
Record t := Build {
  id : Z;
  uuid : UUID;
  name : string;
  email : string;
  role : string;
  password : string;
}.
Definition set_name (v : string) (u : t) : t :=
  Build (id u) (uuid u) v (email u) (role u) (password u).
Definition set_email (v : string) (u : t) : t :=
  Build (id u) (uuid u) (name u) v (role u) (password u).
Definition set_role (v : string) (u : t) : t :=
  Build (id u) (uuid u) (name u) (email u) v (password u).
Definition set_password (v : string) (u : t) : t :=
  Build (id u) (uuid u) (name u) (email u) (role u) v.
End UserModel.

(** The body of [PUT /user/{user_id}]: every field may be left out. *)
Module UserUpdate.
Record t := Build {
  name : option string;
  email : option string;
  role : option string;
  password : option string;
}.
End UserUpdate.

(** [OAuth2PasswordRequestForm]: the two fields [login] reads. *)
Module LoginForm.
Record t := Build {
  username : string;
  password : string;
}.
End LoginForm.

(** ** Settings ([app/config.py]) *)

Record Settings := {
  PG_DATABASE_URL : string;
  SECRET_KEY : string;
  ALGORITHM : string;
  ACCESS_TOKEN_EXPIRE_MINUTES : Z;
}.

(** ** Exceptions, responses *)

(** What the persistence layer raises: [sqlalchemy.orm.exc.NoResultFound],
    or some other error of the store. *)
Inductive store_error :=
| NoResultFound
| OtherStoreError (msg : string).

Inductive exn :=
| HTTPException (status_code : nat) (detail : string)
                (headers : list (string * string))
| StoreError (e : store_error)
| IndexError
| TypeError
| AttributeError
| OverflowError
| ValidationError
| InvalidReference (l : loc).

(** The result of a service method. *)
Inductive answer (A : Type) :=
| Ok (a : A)
| Failed (e : store_error).
Arguments Ok {A} a.
Arguments Failed {A} e.

Inductive outcome (A : Type) :=
| Return (a : A)
| Raise (e : exn).
Arguments Return {A} a.
Arguments Raise {A} e.

Definition HTTP_200_OK : nat := 200%nat.
Definition HTTP_204_NO_CONTENT : nat := 204%nat.
Definition HTTP_400_BAD_REQUEST : nat := 400%nat.
Definition HTTP_401_UNAUTHORIZED : nat := 401%nat.
Definition HTTP_404_NOT_FOUND : nat := 404%nat.
Definition HTTP_500_INTERNAL_SERVER_ERROR : nat := 500%nat.

(** What an endpoint function returns. *)
Inductive retval :=
| RNone
| RObj (r : ref)
| RList (rs : list ref)
| RScalar (v : pyval)
| RDict (kv : list (string * string)).

(** [return v] for a value handed back by the service. *)
Definition retval_of (v : pyval) : retval :=
  match v with
  | PyNone => RNone
  | PyObj r => RObj r
  | PyList rs => RList rs
  | PyBool _ | PyInt _ | PyStr _ => RScalar v
  end.

(** Response bodies.  A serialised model is kept as the record itself. *)
Inductive content :=
| CEmpty
| CText (s : string)
| CModel (u : UserModel.t)
| CModels (us : list UserModel.t)
| CScalar (v : pyval)
| CDict (kv : list (string * string)).

Record Response := mkResponse {
  status : nat;
  body : content;
  resp_headers : list (string * string);
}.

(** Claims of a token: a Python [dict] with string keys. *)
Inductive claim :=
| ClaimStr (s : string)
| ClaimInt (n : Z).

(** ** Calls leaving the router *)

Inductive event :=
| EvGetUsers (uuid : option ident)
| EvUpdateUser (user : pyval)
| EvDeleteUser (uuid : UUID)
| EvVerifyUser (email password : string)
| EvGetUserByEmail (email : string)
| EvCreateAccessToken (data : gmap string claim) (expires_delta : Z)
| EvEndpoint (name : string).


(** ** The database session and the handler monad *)

(** The session a request works in: the ORM objects it holds, the backing
    store (left abstract), and the wall clock read by [datetime.utcnow()],
    in seconds. *)
Record World (D : Type) := mkWorld {
  objects : gmap loc UserModel.t;
  store : D;
  clock : Z;
}.
Arguments mkWorld {D} _ _ _.
Arguments objects {D} _.
Arguments store {D} _.
Arguments clock {D} _.

Record Runtime (D : Type) := mkRuntime {
  world : World D;
  trace : list event;
}.
Arguments mkRuntime {D} _ _.
Arguments world {D} _.
Arguments trace {D} _.

(** [UserService] ([app.database.user.service]) as its callers see it:
    awaited methods on the session.  Each may return, or fail with an error
    of the persistence layer.  The first four are the ones [router.py]
    calls, with the arguments it passes; the last is the lookup by email
    that the current-user dependency needs. *)
Module UserService.
Record t (D : Type) := Build {
  get_users : option ident → World D → answer pyval * World D;
  update_user : pyval → World D → answer pyval * World D;
  delete_user : UUID → World D → answer () * World D;
  verify_user : string → string → World D → answer pyval * World D;
  get_user_by_email : string → World D → answer (option ref) * World D;
}.
Arguments get_users {D} _ _ _.
Arguments update_user {D} _ _ _.
Arguments delete_user {D} _ _ _.
Arguments verify_user {D} _ _ _ _.
Arguments get_user_by_email {D} _ _ _.
End UserService.

Definition M (D A : Type) : Type := Runtime D → outcome A * Runtime D.

#[global] Instance M_ret {D} : MRet (M D) := λ A a rt, (Return a, rt).
#[global] Instance M_bind {D} : MBind (M D) :=
  λ A B f m rt,
    match m rt with
    | (Return a, rt') => f a rt'
    | (Raise e, rt') => (Raise e, rt')
    end.

Definition raise {D A} (e : exn) : M D A := λ rt, (Raise e, rt).

(** An awaited call of a service method: it runs on the session and is
    written to the trace. *)
Definition call {D A} (ev : event)
    (method : World D → answer A * World D) : M D A :=
  λ rt, match method (world rt) with
        | (Ok a, w) => (Return a, mkRuntime w (trace rt ++ [ev]))
        | (Failed e, w) => (Raise (StoreError e), mkRuntime w (trace rt ++ [ev]))
        end.

Definition enter {D} (name : string) : M D () :=
  λ rt, (Return (), mkRuntime (world rt) (trace rt ++ [EvEndpoint name])).

(** [obj.attr] *)
Definition getattr {D A} (r : ref) (attr : UserModel.t → A) : M D A :=
  λ rt, let 'Ref l := r in
        match objects (world rt) !! l with
        | Some u => (Return (attr u), rt)
        | None => (Raise (InvalidReference l), rt)
        end.

Definition set_object {D} (l : loc) (u : UserModel.t) (w : World D) : World D :=
  mkWorld (<[l := u]> (objects w)) (store w) (clock w).

(** [v.attr] for a value that may or may not be a model instance *)
Definition getattr_of {D A} (v : pyval) (attr : UserModel.t → A) : M D A :=
  match v with
  | PyObj r => getattr r attr
  | _ => raise AttributeError
  end.

(** [obj.attr = v], through the setter of the attribute *)
Definition setattr {D} (r : ref) (setter : UserModel.t → UserModel.t) : M D () :=
  λ rt, let 'Ref l := r in
        match objects (world rt) !! l with
        | Some u => (Return (), mkRuntime (set_object l (setter u) (world rt)) (trace rt))
        | None => (Raise (InvalidReference l), rt)
        end.

(** [v.attr = x] for a value that may or may not be a model instance *)
Definition setattr_of {D} (v : pyval) (setter : UserModel.t → UserModel.t)
    : M D () :=
  match v with
  | PyObj r => setattr r setter
  | _ => raise AttributeError
  end.

(** [v[0]]: the first element of a list, the first character of a string;
    nothing else here can be subscripted. *)
Definition subscript0 {D} (v : pyval) : M D pyval :=
  match v with
  | PyList (r :: _) => mret (PyObj r)
  | PyStr (String a _) => mret (PyStr (String a EmptyString))
  | PyList [] | PyStr EmptyString => raise IndexError
  | PyNone | PyBool _ | PyInt _ | PyObj _ => raise TypeError
  end.

(** [a or b] with [a] an optional string and [b] a string expression: [b] is
    evaluated only when [a] is false. *)
Definition py_or {D} (a : option string) (b : M D string) : M D string :=
  match a with
  | Some s => if truthy s then mret s else b
  | None => b
  end.

(** [try: body / except NoResultFound: handler] *)
Definition try_except_NoResultFound {D A} (body handler : M D A) : M D A :=
  λ rt, match body rt with
        | (Raise (StoreError NoResultFound), rt') => handler rt'
        | res => res
        end.

(** ** The framework around an endpoint function *)

Fixpoint deref_all {D} (rs : list ref) : M D (list UserModel.t) :=
  match rs with
  | [] => mret []
  | r :: rs' => u ← getattr r (λ u, u); us ← deref_all rs'; mret (u :: us)
  end.

(** The encoder applied to what the endpoint function returned; it reads
    the objects as they are when the function returns. *)
Definition serialize {D} (v : retval) : M D content :=
  match v with
  | RNone => mret CEmpty
  | RObj r => u ← getattr r (λ u, u); mret (CModel u)
  | RList rs => us ← deref_all rs; mret (CModels us)
  | RScalar v => mret (CScalar v)
  | RDict kv => mret (CDict kv)
  end.

(** An [HTTPException] becomes a response with its status, a [detail] body
    and its headers; anything else is an internal server error. *)
Definition error_response (e : exn) : Response :=
  match e with
  | HTTPException code detail hdrs => mkResponse code (CDict [("detail", detail)]) hdrs
  | _ => mkResponse HTTP_500_INTERNAL_SERVER_ERROR (CText "Internal Server Error") []
  end.

Fixpoint run_dependencies {D} (deps : list (M D ())) : M D () :=
  match deps with
  | [] => mret ()
  | d :: deps' => _ ← d; run_dependencies deps'
  end.

(** A route: the dependencies are resolved first; only if none raises is
    the endpoint function entered. *)
Definition route {D} (name : string) (status_code : nat)
    (dependencies : list (M D ())) (endpoint : M D retval)
    : Runtime D → Response * Runtime D :=
  λ rt,
    let handled : M D content :=
      _ ← run_dependencies dependencies;
      _ ← enter name;
      v ← endpoint;
      serialize v in
    match handled rt with
    | (Return c, rt') => (mkResponse status_code c [], rt')
    | (Raise e, rt') => (error_response e, rt')
    end.

(** [Depends(f)] in a [dependencies=[...]] list: the value is dropped. *)
Definition Depends {D A} (f : M D A) : M D () := _ ← f; mret ().


(** ** The application *)

(** [timedelta(minutes=m)] for an [int]: a duration, kept as its number of
    seconds.  The constructor normalises to days, seconds and microseconds
    and raises [OverflowError] when the days exceed 999999999 in
    magnitude. *)
Definition MAX_DELTA_DAYS : Z := 999999999.

Definition timedelta_minutes {D} (m : Z) : M D Z :=
  if Z.leb (Z.abs (m / 1440)) MAX_DELTA_DAYS then mret (60 * m)
  else raise OverflowError.

Section Application.

Context {D : Type}.

(** [from app.config import constants] *)
Variable constants : Settings.

(** The [UserService] every handler builds on its session. *)
Variable user_service : UserService.t D.

(** The token library: signing a claims dictionary with a key and an
    algorithm, and checking a token's signature against a key and an
    algorithm (no result when the token is malformed or the signature does
    not match). *)
Variable jwt_encode : gmap string claim → string → string → string.
Variable jwt_decode : string → string → string → option (gmap string claim).

(** *** [app.util.auth] *)

(** Modelled from the spec: [AuthUtil.create_access_token] of
    [app/util/auth.py], which is not among the sources.  "Produces a signed
    token string embedding the supplied claims plus an absolute expiry
    computed as current time + ttl; signing uses a symmetric secret and a
    configured algorithm." *)
Definition AuthUtil_create_access_token
    (data : gmap string claim) (expires_delta : Z) : M D string :=
  λ rt,
    let expire := clock (world rt) + expires_delta in
    let to_encode := <["exp" := ClaimInt expire]> data in
    (Return (jwt_encode to_encode (SECRET_KEY constants) (ALGORITHM constants)),
     mkRuntime (world rt) (trace rt ++ [EvCreateAccessToken data expires_delta])).

(** Modelled from the spec: the validation half of the token utility.
    "Decode and verify signature and expiry; on success yield the subject
    claim; on invalid signature, malformed token, or expiry in the past,
    fail." *)
Definition AuthUtil_decode_subject (token : string) (now : Z) : option string :=
  match jwt_decode token (SECRET_KEY constants) (ALGORITHM constants) with
  | None => None
  | Some payload =>
      let expired :=
        match payload !! "exp" with
        | Some (ClaimInt expire) => Z.ltb expire now
        | Some (ClaimStr _) => true
        | None => false
        end in
      if expired then None
      else match payload !! "sub" with
           | Some (ClaimStr sub) => Some sub
           | _ => None
           end
  end.

(** *** [app.router.user.dependency] *)

Definition credentials_exception : exn :=
  HTTPException HTTP_401_UNAUTHORIZED "Could not validate credentials"
                [("WWW-Authenticate", "Bearer")].

(** Modelled from the spec: [get_current_user] of
    [app/router/user/dependency.py], which is not among the sources.  Its
    input is the bearer token extracted from the authorization header, if
    there is one.  "On missing/invalid/expired token: fail with an
    unauthorized signal.  On valid token: decode the subject claim, resolve
    it to a stored user record (by email); if no such user exists, fail with
    unauthorized.  On success: yields the resolved user identity." *)
Definition get_current_user (token : option string) : M D ref :=
  match token with
  | None => raise credentials_exception
  | Some token =>
      λ rt,
        match AuthUtil_decode_subject token (clock (world rt)) with
        | None => raise credentials_exception rt
        | Some email =>
            (user ← call (EvGetUserByEmail email)
                         (UserService.get_user_by_email user_service email);
             match user with
             | None => raise credentials_exception
             | Some user => mret user
             end) rt
        end
  end.

(** *** [app/router/user/router.py] *)

(** [GET /user/] *)
Definition get_users : M D retval :=
  result ← call (EvGetUsers None) (UserService.get_users user_service None);
  if negb (truthy result) then
    mret (RList [])
  else
    mret (retval_of result).

(** [PUT /user/{user_id}], [user_id: int] *)
Definition update_user (user_id : Z) (user : UserUpdate.t) : M D retval :=
  existing_user ← call (EvGetUsers (Some (IdInt user_id)))
                       (UserService.get_users user_service (Some (IdInt user_id)));
  if negb (truthy existing_user) then
    raise (HTTPException HTTP_404_NOT_FOUND "User not found" [])
  else
    existing_user ← subscript0 existing_user;
    v ← py_or (UserUpdate.name user) (getattr_of existing_user UserModel.name);
    _ ← setattr_of existing_user (UserModel.set_name v);
    v ← py_or (UserUpdate.email user) (getattr_of existing_user UserModel.email);
    _ ← setattr_of existing_user (UserModel.set_email v);
    v ← py_or (UserUpdate.role user) (getattr_of existing_user UserModel.role);
    _ ← setattr_of existing_user (UserModel.set_role v);
    v ← py_or (UserUpdate.password user)
              (getattr_of existing_user UserModel.password);
    _ ← setattr_of existing_user (UserModel.set_password v);
    updated ← call (EvUpdateUser existing_user)
                   (UserService.update_user user_service existing_user);
    if negb (truthy updated) then
      raise (HTTPException HTTP_400_BAD_REQUEST "Failed to update user" [])
    else
      mret (retval_of existing_user).

(** [DELETE /user/{user_id}], [user_id: UUID] *)
Definition delete_user (user_id : UUID) : M D retval :=
  existing_user ← call (EvGetUsers (Some (IdUuid user_id)))
                       (UserService.get_users user_service (Some (IdUuid user_id)));
  if negb (truthy existing_user) then
    raise (HTTPException HTTP_404_NOT_FOUND "User not found" [])
  else
    _ ← try_except_NoResultFound
          (first ← subscript0 existing_user;
           uuid ← getattr_of first UserModel.uuid;
           call (EvDeleteUser uuid) (UserService.delete_user user_service uuid))
          (raise (HTTPException HTTP_400_BAD_REQUEST "Failed to delete user" []));
    mret RNone.

(** [POST /user/login] *)
Definition login (form_data : LoginForm.t) : M D retval :=
  user ← call (EvVerifyUser (LoginForm.username form_data) (LoginForm.password form_data))
              (UserService.verify_user user_service
                 (LoginForm.username form_data) (LoginForm.password form_data));
  if negb (truthy user) then
    raise (HTTPException HTTP_401_UNAUTHORIZED "Invalid credentials"
                         [("WWW-Authenticate", "Bearer")])
  else
    access_token_expires ←
      timedelta_minutes (ACCESS_TOKEN_EXPIRE_MINUTES constants);
    sub ← getattr_of user UserModel.email;
    access_token ← AuthUtil_create_access_token
                     {["sub" := ClaimStr sub]} access_token_expires;
    mret (RDict [("access_token", access_token); ("token_type", "bearer")]).

(** [GET /user/protected-route] *)
Definition protected_route : M D retval :=
  mret (RDict [("message", "This is a protected route")]).

(** [app/server.py]: [GET /] *)
Definition index : M D retval :=
  mret (RDict [("message", "Master Server API")]).

(** *** The routes, as the decorators declare them *)

Definition GET_users := route "get_users" HTTP_200_OK [] get_users.

Definition PUT_user (user_id : Z) (user : UserUpdate.t) :=
  route "update_user" HTTP_200_OK [] (update_user user_id user).

Definition DELETE_user (user_id : UUID) :=
  route "delete_user" HTTP_204_NO_CONTENT [] (delete_user user_id).

Definition POST_login (form_data : LoginForm.t) :=
  route "login" HTTP_200_OK [] (login form_data).

(** [dependencies=[Depends(get_current_user)]], for whatever the dependency
    is. *)
Definition GET_protected_route_with {A} (dependency : M D A) :=
  route "protected_route" HTTP_200_OK [Depends dependency] protected_route.

Definition GET_protected_route (token : option string) :=
  GET_protected_route_with (get_current_user token).

Definition GET_index := route "index" HTTP_200_OK [] index.

End Application.


(** ** [app/config.py]: loading and caching the settings *)

(** A [Settings] object together with its identity: the number of the
    construction that made it. *)
Definition SettingsObj : Type := nat * Settings.

(** The state of the [app.config] module in a process: how often the
    environment has been read, and the cache of the [lru_cache] wrapper
    around [get_settings].  The wrapped function has no argument, so the
    cache has the one key [()] and never evicts it. *)
Record ConfigState := mkConfig {
  env_reads : nat;
  cache : option SettingsObj;
}.

Definition config_initial : ConfigState := mkConfig 0 None.

Section Config.

(** [BaseSettings]: the raw value the environment gives a field, and the
    validation of an [int] field. *)
Variable read_field : gmap string string → string → option string.
Variable validate_int : string → option Z.

(** [Settings()]: four required fields, no defaults. *)
Definition Settings_init (environ : gmap string string) : outcome Settings :=
  match read_field environ "PG_DATABASE_URL",
        read_field environ "SECRET_KEY",
        read_field environ "ALGORITHM",
        read_field environ "ACCESS_TOKEN_EXPIRE_MINUTES" ≫= validate_int with
  | Some url, Some key, Some alg, Some minutes =>
      Return {| PG_DATABASE_URL := url; SECRET_KEY := key;
                ALGORITHM := alg; ACCESS_TOKEN_EXPIRE_MINUTES := minutes |}
  | _, _, _, _ => Raise ValidationError
  end.

(** [@lru_cache def get_settings(): return Settings()].  A hit returns the
    cached object; a miss runs the body and stores what it returns; a body
    that raises stores nothing. *)
Definition get_settings (environ : gmap string string) (c : ConfigState)
    : outcome SettingsObj * ConfigState :=
  match cache c with
  | Some obj => (Return obj, c)
  | None =>
      match Settings_init environ with
      | Return s =>
          let obj := (env_reads c, s) in
          (Return obj, mkConfig (S (env_reads c)) (Some obj))
      | Raise e => (Raise e, mkConfig (S (env_reads c)) None)
      end
  end.

(** Importing the module runs [constants = get_settings()]; if that raises,
    the import fails and there is no module. *)
Definition import_config (environ : gmap string string)
    : option (SettingsObj * ConfigState) :=
  match get_settings environ config_initial with
  | (Return obj, c) => Some (obj, c)
  | (Raise _, _) => None
  end.

End Config.

(** ** The running process *)

Inductive request :=
| ReqGetUsers
| ReqUpdateUser (user_id : Z) (user : UserUpdate.t)
| ReqDeleteUser (user_id : UUID)
| ReqLogin (form_data : LoginForm.t)
| ReqProtectedRoute (token : option string)
| ReqIndex.

(** What happens in a process once [app.config] is imported: somebody calls
    [get_settings()] (under whatever the environment is by then), or a
    request is served. *)
Inductive action :=
| ActGetSettings (environ : gmap string string)
| ActRequest (req : request).

Inductive observation :=
| ObsSettings (res : outcome SettingsObj)
| ObsResponse (resp : Response).

Record Process (D : Type) := mkProcess {
  config : ConfigState;
  constants_obj : SettingsObj;
  runtime : Runtime D;
}.
Arguments mkProcess {D} _ _ _.
Arguments config {D} _.
Arguments constants_obj {D} _.
Arguments runtime {D} _.

Section Process.

Context {D : Type}.
Variable read_field : gmap string string → string → option string.
Variable validate_int : string → option Z.
Variable user_service : UserService.t D.
Variable jwt_encode : gmap string claim → string → string → string.
Variable jwt_decode : string → string → string → option (gmap string claim).

Definition serve (constants : Settings) (req : request)
    : Runtime D → Response * Runtime D :=
  match req with
  | ReqGetUsers => GET_users user_service
  | ReqUpdateUser user_id user => PUT_user user_service user_id user
  | ReqDeleteUser user_id => DELETE_user user_service user_id
  | ReqLogin form_data => POST_login constants user_service jwt_encode form_data
  | ReqProtectedRoute token =>
      GET_protected_route constants user_service jwt_decode token
  | ReqIndex => GET_index
  end.

Definition start (environ : gmap string string) (rt : Runtime D)
    : option (Process D) :=
  match import_config read_field validate_int environ with
  | Some (obj, c) => Some (mkProcess c obj rt)
  | None => None
  end.

Definition step (a : action) (p : Process D) : observation * Process D :=
  match a with
  | ActGetSettings environ =>
      let '(res, c) := get_settings read_field validate_int environ (config p) in
      (ObsSettings res, mkProcess c (constants_obj p) (runtime p))
  | ActRequest req =>
      let '(resp, rt) := serve (snd (constants_obj p)) req (runtime p) in
      (ObsResponse resp, mkProcess (config p) (constants_obj p) rt)
  end.

Fixpoint run (acts : list action) (p : Process D)
    : list observation * Process D :=
  match acts with
  | [] => ([], p)
  | a :: acts' =>
      let '(o, p') := step a p in
      let '(os, p'') := run acts' p' in
      (o :: os, p'')
  end.

End Process.


(** ** An in-memory user service *)

Module InMemory.

(** The backing store: the rows of the user table. *)
Definition Table : Type := list UserModel.t.

(** The session keeps one object per primary key. *)
Definition loc_of (u : UserModel.t) : loc := Z.to_nat (UserModel.id u).

(** The equality filter of the list operation.  A UUID is compared with the
    [uuid] column; for an [int] the filter is read the way the comment in
    [update_user] assumes it ("this method can handle filtering by ID"). *)
Definition matches (filter : option ident) (u : UserModel.t) : bool :=
  match filter with
  | None => true
  | Some (IdUuid x) => N.eqb (UserModel.uuid u) x
  | Some (IdInt n) => Z.eqb (UserModel.id u) n
  end.

Definition load (u : UserModel.t) (w : World Table) : ref * World Table :=
  match objects w !! loc_of u with
  | Some _ => (Ref (loc_of u), w)
  | None => (Ref (loc_of u), set_object (loc_of u) u w)
  end.

Fixpoint load_all (rows : list UserModel.t) (w : World Table)
    : list ref * World Table :=
  match rows with
  | [] => ([], w)
  | u :: rows' =>
      let '(r, w') := load u w in
      let '(rs, w'') := load_all rows' w' in
      (r :: rs, w'')
  end.

Definition with_store (t : Table) (w : World Table) : World Table :=
  mkWorld (objects w) t (clock w).

Definition find_by_email (email : string) (t : Table) : option UserModel.t :=
  List.find (λ u, String.eqb (UserModel.email u) email) t.

(** Modelled from the spec: [UserService] of
    [app/database/user/service.py], which is not among the sources.
    "[list(filter?)]: returns all matching user records; returns empty
    collection when nothing matches.  [update(record)]: persists mutations
    to an existing, already-fetched record; returns a success signal.
    [delete(uuid)]: removes the record matching the UUID; signals a distinct
    not-found condition when no row matches.  [verify(email, password)]:
    fetches the record by email and performs a direct equality comparison
    against the stored password value; returns the record on match, an
    empty/falsy result on mismatch or missing user." *)
Definition service : UserService.t Table :=
  {| UserService.get_users := λ filter w,
       let '(rs, w') := load_all (List.filter (matches filter) (store w)) w in
       (Ok (PyList rs), w');
     UserService.update_user := λ user w,
       match user with
       | PyObj (Ref l) =>
           match objects w !! l with
           | Some u =>
               (Ok (PyBool true),
                with_store
                  (List.map (λ row, if Z.eqb (UserModel.id row) (UserModel.id u)
                                    then u else row) (store w)) w)
           | None => (Ok (PyBool false), w)
           end
       | _ => (Ok (PyBool false), w)
       end;
     UserService.delete_user := λ uuid w,
       if List.existsb (matches (Some (IdUuid uuid))) (store w) then
         (Ok (),
          with_store
            (List.filter (λ row, negb (matches (Some (IdUuid uuid)) row)) (store w)) w)
       else (Failed NoResultFound, w);
     UserService.verify_user := λ email password w,
       match find_by_email email (store w) with
       | Some u =>
           if String.eqb (UserModel.password u) password then
             let '(r, w') := load u w in (Ok (PyObj r), w')
           else (Ok PyNone, w)
       | None => (Ok PyNone, w)
       end;
     UserService.get_user_by_email := λ email w,
       match find_by_email email (store w) with
       | Some u => let '(r, w') := load u w in (Ok (Some r), w')
       | None => (Ok None, w)
       end |}.

(** The same service, except that its list operation answers an integer
    filter only. *)
Definition int_only_service : UserService.t Table :=
  {| UserService.get_users := λ filter,
       match filter with
       | Some (IdInt n) => UserService.get_users service (Some (IdInt n))
       | _ => λ w, (Failed (OtherStoreError "unsupported filter"), w)
       end;
     UserService.update_user := UserService.update_user service;
     UserService.delete_user := UserService.delete_user service;
     UserService.verify_user := UserService.verify_user service;
     UserService.get_user_by_email := UserService.get_user_by_email service |}.

(** The same service over a store that refuses writes: its update reports
    failure, and its delete finds the row gone. *)
Definition refusing_service : UserService.t Table :=
  {| UserService.get_users := UserService.get_users service;
     UserService.update_user := λ _ w, (Ok (PyBool false), w);
     UserService.delete_user := λ _ w, (Failed NoResultFound, w);
     UserService.verify_user := UserService.verify_user service;
     UserService.get_user_by_email := UserService.get_user_by_email service |}.

(** A token library for the examples.  A token is the key, the expiry in
    decimal and the subject, separated by colons; it decodes under the key
    it was made with and under no other. *)
Definition show_Z (n : Z) : string := NilZero.string_of_int (Z.to_int n).

Definition read_Z (s : string) : option Z :=
  match NilZero.int_of_string s with
  | Some d => Some (Z.of_int d)
  | None => None
  end.

Definition toy_encode (payload : gmap string claim) (key alg : string) : string :=
  match payload !! "sub", payload !! "exp" with
  | Some (ClaimStr sub), Some (ClaimInt expire) =>
      key ++ ":" ++ show_Z expire ++ ":" ++ sub
  | _, _ => key ++ "::"
  end.

Fixpoint strip_prefix (p s : string) : option string :=
  match p, s with
  | EmptyString, _ => Some s
  | String a p', String b s' =>
      if Ascii.eqb a b then strip_prefix p' s' else None
  | String _ _, EmptyString => None
  end.

Fixpoint split_colon (s : string) : option (string * string) :=
  match s with
  | EmptyString => None
  | String a s' =>
      if Ascii.eqb a ":"%char then Some (EmptyString, s')
      else match split_colon s' with
           | Some (l, r) => Some (String a l, r)
           | None => None
           end
  end.

Definition toy_decode (token key alg : string) : option (gmap string claim) :=
  match strip_prefix (key ++ ":") token with
  | Some rest =>
      match split_colon rest with
      | Some (es, sub) =>
          match read_Z es with
          | Some expire =>
              Some (<["exp" := ClaimInt expire]> {["sub" := ClaimStr sub]})
          | None => None
          end
      | None => None
      end
  | None => None
  end.

(** Fixtures. *)
Definition alice : UserModel.t :=
  UserModel.Build 1 17%N "A" "a@x.com" "user" "p".
Definition bob : UserModel.t :=
  UserModel.Build 2 42%N "B" "b@x.com" "admin" "q".

Definition alice_renamed : UserModel.t :=
  UserModel.Build 1 17%N "AA" "a@x.com" "user" "p".

(** A body that sets the name, gives an empty role and omits the rest. *)
Definition rename_alice : UserUpdate.t :=
  UserUpdate.Build (Some "AA") None (Some "") None.

Definition world0 : World Table := mkWorld ∅ [alice; bob] 1000.
Definition rt0 : Runtime Table := mkRuntime world0 [].

Definition settings0 : Settings :=
  {| PG_DATABASE_URL := "postgresql://db"; SECRET_KEY := "k";
     ALGORITHM := "HS256"; ACCESS_TOKEN_EXPIRE_MINUTES := 30 |}.

Definition environ0 : gmap string string :=
  {[ "PG_DATABASE_URL" := "postgresql://db"; "SECRET_KEY" := "k";
     "ALGORITHM" := "HS256"; "ACCESS_TOKEN_EXPIRE_MINUTES" := "30" ]}.

Definition read0 (environ : gmap string string) (field : string) : option string :=
  environ !! field.

Definition validate0 (s : string) : option Z :=
  if String.eqb s "30" then Some 30 else None.

End InMemory.


(** ** Reading the session *)

Definition deref {D} (w : World D) (r : ref) : option UserModel.t :=
  let 'Ref l := r in objects w !! l.

Fixpoint lookup_all {D} (w : World D) (rs : list ref) : option (list UserModel.t) :=
  match rs with
  | [] => Some []
  | r :: rs' =>
      match deref w r, lookup_all w rs' with
      | Some u, Some us => Some (u :: us)
      | _, _ => None
      end
  end.

(** The partial update in the spec's words: "field-by-field overwrite only
    when the new value is truthy". *)
Definition overwrite (new : option string) (old : string) : string :=
  if truthy new then default old new else old.

Definition partial_update (user : UserUpdate.t) (old : UserModel.t) : UserModel.t :=
  {| UserModel.id := UserModel.id old;
     UserModel.uuid := UserModel.uuid old;
     UserModel.name := overwrite (UserUpdate.name user) (UserModel.name old);
     UserModel.email := overwrite (UserUpdate.email user) (UserModel.email old);
     UserModel.role := overwrite (UserUpdate.role user) (UserModel.role old);
     UserModel.password :=
       overwrite (UserUpdate.password user) (UserModel.password old) |}.

(** What the update does to one field, as a relation between the field of
    the request, the old value and the value afterwards. *)
Definition overwritten_only_if_truthy
    (new : option string) (old after : string) : Prop :=
  (truthy new = true → new = Some after) ∧ (truthy new = false → after = old).

(** The state of [app.config] once the module is imported. *)
Definition loaded {D} (p : Process D) : Prop :=
  config p = mkConfig 1 (Some (constants_obj p)).

(** ** Creating a user *)

(** The body of [POST /user/]: all four fields are required. *)
Module UserCreate.
Record t := Build {
  name : string;
  email : string;
  role : string;
  password : string;
}.
End UserCreate.

(** An awaited call of a method that is not written to the trace. *)
Definition await {D A} (method : World D → answer A * World D) : M D A :=
  λ rt, match method (world rt) with
        | (Ok a, w) => (Return a, mkRuntime w (trace rt))
        | (Failed e, w) => (Raise (StoreError e), mkRuntime w (trace rt))
        end.

Section AddUser.

Context {D : Type}.

(** The model class is known by its fields only.  What it gives the two
    fields that the constructor call of [add_user] leaves out, [id] and
    [uuid], is a parameter. *)
Variable UserModel_defaults : World D → Z * UUID.

(** [UserService.add_user]: takes the new object, returns the added one. *)
Variable service_add_user : ref → World D → answer ref * World D.

(** [UserModel(name=..., email=..., role=..., password=...)]: a new object,
    at a reference no object has yet. *)
Definition UserModel_new (name email role password : string) : M D ref :=
  λ rt,
    let l := fresh (dom (objects (world rt))) in
    let '(id, uuid) := UserModel_defaults (world rt) in
    (Return (Ref l),
     mkRuntime
       (set_object l (UserModel.Build id uuid name email role password) (world rt))
       (trace rt)).

(** [POST /user/] *)
Definition add_user (user : UserCreate.t) : M D retval :=
  new_user ← UserModel_new (UserCreate.name user) (UserCreate.email user)
                           (UserCreate.role user) (UserCreate.password user);
  added_user ← await (service_add_user new_user);
  mret (RObj added_user).

Definition POST_user (user : UserCreate.t) :=
  route "add_user" HTTP_200_OK [] (add_user user).

End AddUser.

(** ** Calling [get_settings] repeatedly *)

Section ConfigCalls.

Variable read_field : gmap string string → string → option string.
Variable validate_int : string → option Z.

(** One call of [get_settings()] after the other, each under the
    environment of its moment. *)
Fixpoint get_settings_calls (environs : list (gmap string string))
    (c : ConfigState) : list (outcome SettingsObj) * ConfigState :=
  match environs with
  | [] => ([], c)
  | environ :: environs' =>
      let '(res, c') := get_settings read_field validate_int environ c in
      let '(ress, c'') := get_settings_calls environs' c' in
      (res :: ress, c'')
  end.

End ConfigCalls.

(** ** More fixtures *)

Module Fixtures.

(** A model class whose new instances have id 0 and uuid 99 until they are
    added. *)
Definition defaults0 (w : World InMemory.Table) : Z * UUID := (0, 99%N).

(** An add operation: the row gets the next id, is appended to the table,
    and the object handed in is the one handed back. *)
Definition add0 (r : ref) (w : World InMemory.Table)
    : answer ref * World InMemory.Table :=
  let 'Ref l := r in
  match objects w !! l with
  | Some u =>
      let row :=
        UserModel.Build (Z.of_nat (S (length (store w)))) (UserModel.uuid u)
          (UserModel.name u) (UserModel.email u) (UserModel.role u)
          (UserModel.password u) in
      (Ok r, InMemory.with_store (store w ++ [row])%list (set_object l row w))
  | None => (Failed (OtherStoreError "detached instance"), w)
  end.

Definition carol : UserCreate.t :=
  UserCreate.Build "C" "c@x.com" "user" "secret".

Definition carol_added : UserModel.t :=
  UserModel.Build 3 99%N "C" "c@x.com" "user" "secret".

(** A body with nothing in it, and one with empty strings only. *)
Definition empty_update : UserUpdate.t := UserUpdate.Build None None None None.
Definition blank_update : UserUpdate.t :=
  UserUpdate.Build (Some "") (Some "") (Some "") (Some "").

(** A session that already holds Alice, renamed. *)
Definition world_renamed : World InMemory.Table :=
  mkWorld {[ 1%nat := InMemory.alice_renamed ]}
          [InMemory.alice_renamed; InMemory.bob] 1000.
Definition rt_renamed : Runtime InMemory.Table := mkRuntime world_renamed [].

(** A service whose every operation fails. *)
Definition failing_service : UserService.t InMemory.Table :=
  {| UserService.get_users := λ _ w, (Failed (OtherStoreError "down"), w);
     UserService.update_user := λ _ w, (Failed (OtherStoreError "down"), w);
     UserService.delete_user := λ _ w, (Failed (OtherStoreError "down"), w);
     UserService.verify_user := λ _ _ w, (Failed (OtherStoreError "down"), w);
     UserService.get_user_by_email := λ _ w, (Failed (OtherStoreError "down"), w) |}.

(** The in-memory service with a store that fails on every write. *)
Definition write_failing_service : UserService.t InMemory.Table :=
  {| UserService.get_users := UserService.get_users InMemory.service;
     UserService.update_user := λ _ w, (Failed (OtherStoreError "read-only"), w);
     UserService.delete_user := λ _ w, (Failed (OtherStoreError "read-only"), w);
     UserService.verify_user := UserService.verify_user InMemory.service;
     UserService.get_user_by_email :=
       UserService.get_user_by_email InMemory.service |}.

(** The in-memory service, except that its list operation returns [None]
    when no row matches. *)
Definition none_service : UserService.t InMemory.Table :=
  {| UserService.get_users := λ filter w,
       match List.filter (InMemory.matches filter) (store w) with
       | [] => (Ok PyNone, w)
       | _ :: _ => UserService.get_users InMemory.service filter w
       end;
     UserService.update_user := UserService.update_user InMemory.service;
     UserService.delete_user := UserService.delete_user InMemory.service;
     UserService.verify_user := UserService.verify_user InMemory.service;
     UserService.get_user_by_email :=
       UserService.get_user_by_email InMemory.service |}.


(** Settings whose token lifetime is one minute more than a [timedelta]
    can hold. *)
Definition settings_overflow : Settings :=
  {| PG_DATABASE_URL := "postgresql://db"; SECRET_KEY := "k";
     ALGORITHM := "HS256"; ACCESS_TOKEN_EXPIRE_MINUTES := 1440000000000 |}.

(** A dependency that always refuses. *)
Definition forbidden {A} : M InMemory.Table A :=
  raise (HTTPException 403 "Forbidden" []).

(** An environment without the signing secret. *)
Definition environ_no_secret : gmap string string :=
  {[ "PG_DATABASE_URL" := "postgresql://db";
     "ALGORITHM" := "HS256"; "ACCESS_TOKEN_EXPIRE_MINUTES" := "30" ]}.

End Fixtures.

(** The response to an exception that is not an [HTTPException]. *)
Definition internal_server_error : Response :=
  mkResponse HTTP_500_INTERNAL_SERVER_ERROR (CText "Internal Server Error") [].

(** ** Properties *)

(** *** Running the monad *)

Ltac unfold_monad :=
  unfold Depends, try_except_NoResultFound, py_or, getattr_of, subscript0 in *;
  unfold mbind, M_bind, mret, M_ret, raise, call, enter, getattr, setattr in *.

Lemma getattr_found {D A} (attr : UserModel.t → A) (rt : Runtime D) l u :
  objects (world rt) !! l = Some u →
  getattr (Ref l) attr rt = (Return (attr u), rt).
Proof. intros H. unfold getattr. by rewrite H. Qed.

Lemma deref_all_found {D} (rs : list ref) (rt : Runtime D) us :
  lookup_all (world rt) rs = Some us →
  deref_all rs rt = (Return us, rt).
Proof.
  revert us. induction rs as [|[l] rs IH]; intros us Hus; simpl in *.
  - by inversion Hus.
  - destruct (objects (world rt) !! l) as [u|] eqn:Hl; [|done].
    destruct (lookup_all (world rt) rs) as [us'|]; [|done].
    inversion Hus; subst. unfold mbind, M_bind.
    rewrite (getattr_found _ _ _ _ Hl). by rewrite (IH us').
Qed.

(** The runtime as the endpoint function of a route finds it. *)
Definition entered {D} (name : string) (rt : Runtime D) : Runtime D :=
  mkRuntime (world rt) (trace rt ++ [EvEndpoint name]).

Lemma route_return {D} name code (endpoint : M D retval) rt v rt1 c rt2 :
  endpoint (entered name rt) = (Return v, rt1) →
  serialize v rt1 = (Return c, rt2) →
  route name code [] endpoint rt = (mkResponse code c [], rt2).
Proof.
  intros He Hs. unfold route, run_dependencies, enter, mbind, M_bind, mret, M_ret.
  fold (entered name rt). by rewrite He, Hs.
Qed.

Lemma route_raise {D} name code (endpoint : M D retval) rt e rt1 :
  endpoint (entered name rt) = (Raise e, rt1) →
  route name code [] endpoint rt = (error_response e, rt1).
Proof.
  intros He. unfold route, run_dependencies, enter, mbind, M_bind, mret, M_ret.
  fold (entered name rt). by rewrite He.
Qed.

Lemma serialize_list {D} (rs : list ref) (rt : Runtime D) us :
  lookup_all (world rt) rs = Some us →
  serialize (RList rs) rt = (Return (CModels us), rt).
Proof.
  intros H. unfold serialize, mbind, M_bind, mret, M_ret.
  by rewrite (deref_all_found rs rt us H).
Qed.

Lemma serialize_obj {D} l (rt : Runtime D) u :
  objects (world rt) !! l = Some u →
  serialize (RObj (Ref l)) rt = (Return (CModel u), rt).
Proof.
  intros H. unfold serialize, mbind, M_bind, mret, M_ret.
  by rewrite (getattr_found _ _ _ _ H).
Qed.

(** *** Listing users *)


(** *** Updating a user *)

Lemma lookup_set_object {D} l u (w : World D) :
  objects (set_object l u w) !! l = Some u.
Proof. unfold set_object; simpl. apply lookup_insert_eq. Qed.

Lemma set_object_twice {D} l u u' (w : World D) :
  set_object l u (set_object l u' w) = set_object l u w.
Proof. unfold set_object; simpl. by rewrite insert_insert_eq. Qed.

(** One line [obj.attr = new or obj.attr] of [update_user]. *)
Lemma assign_or_keep {D B} (attr : UserModel.t → string)
    (setter : string → UserModel.t → UserModel.t)
    (new : option string) l u (k : M D B) (rt : Runtime D) :
  objects (world rt) !! l = Some u →
  (v ← py_or new (getattr_of (PyObj (Ref l)) attr);
   _ ← setattr_of (PyObj (Ref l)) (setter v); k) rt
  = k (mkRuntime (set_object l (setter (overwrite new (attr u)) u) (world rt))
                 (trace rt)).
Proof.
  intros Hl. unfold mbind, M_bind, py_or, overwrite, getattr_of, setattr_of.
  destruct new as [[|a s]|]; simpl; rewrite Hl; simpl; by rewrite ?Hl.
Qed.

(** The handler up to the call of the service's update: the lookup, then the
    four assignments on the first object found. *)
Lemma update_user_assignments {D} (svc : UserService.t D) user_id user
    (rt : Runtime D) l rest w1 old :
  UserService.get_users svc (Some (IdInt user_id)) (world rt)
  = (Ok (PyList (Ref l :: rest)), w1) →
  objects w1 !! l = Some old →
  update_user svc user_id user rt
  = (updated ← call (EvUpdateUser (PyObj (Ref l)))
                        (UserService.update_user svc (PyObj (Ref l)));
     if negb (truthy updated) then
       raise (HTTPException HTTP_400_BAD_REQUEST "Failed to update user" [])
     else mret (RObj (Ref l)))
      (mkRuntime (set_object l (partial_update user old) w1)
                 (trace rt ++ [EvGetUsers (Some (IdInt user_id))])).
Proof.
  intros Hsvc Hold. unfold update_user.
  unfold mbind at 1. unfold M_bind at 1. unfold call at 1. rewrite Hsvc. simpl.
  unfold mbind at 1. unfold M_bind at 1. unfold mret, M_ret.
  erewrite (assign_or_keep UserModel.name UserModel.set_name); [|exact Hold].
  erewrite (assign_or_keep UserModel.email UserModel.set_email);
    [|apply lookup_set_object].
  erewrite (assign_or_keep UserModel.role UserModel.set_role);
    [|apply lookup_set_object].
  erewrite (assign_or_keep UserModel.password UserModel.set_password);
    [|apply lookup_set_object].
  simpl. rewrite !set_object_twice. done.
Qed.

Lemma overwrite_spec new old :
  overwritten_only_if_truthy new old (overwrite new old).
Proof.
  unfold overwritten_only_if_truthy, overwrite.
  destruct new as [[|a s]|]; simpl; split; intros; done.
Qed.

(** The lookup found an object that the session does not hold: the first
    assignment fails on it. *)
Lemma update_user_dangling {D} (svc : UserService.t D) user_id user
    (rt : Runtime D) l rest w1 :
  UserService.get_users svc (Some (IdInt user_id)) (world rt)
  = (Ok (PyList (Ref l :: rest)), w1) →
  objects w1 !! l = None →
  update_user svc user_id user rt
  = (Raise (InvalidReference l),
     mkRuntime w1 (trace rt ++ [EvGetUsers (Some (IdInt user_id))])).
Proof.
  intros Hsvc Hl. unfold update_user. unfold_monad. rewrite Hsvc. simpl.
  destruct (UserUpdate.name user) as [[|a s]|]; simpl; rewrite Hl; done.
Qed.

(** C5.  When the lookup of an update request finds a record, the handler
    reaches the service's update with exactly that record changed, and
    changed so: each of name, email, role and password holds the value of
    the request if that value is true and its previous value otherwise; id
    and uuid are as before.  Every other object of the session, the store
    and the clock are as the lookup left them. *)
Theorem update_user_overwrites_truthy_fields_only {D} (svc : UserService.t D)
    (user_id : Z) (user : UserUpdate.t) (rt : Runtime D)
    (l : loc) (rest : list ref) (w1 : World D) (old : UserModel.t) :
  UserService.get_users svc (Some (IdInt user_id)) (world rt)
  = (Ok (PyList (Ref l :: rest)), w1) →
  objects w1 !! l = Some old →
  ∃ after : UserModel.t,
    UserModel.id after = UserModel.id old
    ∧ UserModel.uuid after = UserModel.uuid old
    ∧ overwritten_only_if_truthy
        (UserUpdate.name user) (UserModel.name old) (UserModel.name after)
    ∧ overwritten_only_if_truthy
        (UserUpdate.email user) (UserModel.email old) (UserModel.email after)
    ∧ overwritten_only_if_truthy
        (UserUpdate.role user) (UserModel.role old) (UserModel.role after)
    ∧ overwritten_only_if_truthy
        (UserUpdate.password user) (UserModel.password old)
        (UserModel.password after)
    ∧ update_user svc user_id user rt
      = (updated ← call (EvUpdateUser (PyObj (Ref l)))
                        (UserService.update_user svc (PyObj (Ref l)));
         if negb (truthy updated) then
           raise (HTTPException HTTP_400_BAD_REQUEST "Failed to update user" [])
         else mret (RObj (Ref l)))
          (mkRuntime (mkWorld (<[l := after]> (objects w1)) (store w1) (clock w1))
                     (trace rt ++ [EvGetUsers (Some (IdInt user_id))])).
Proof.
  intros Hsvc Hold. exists (partial_update user old).
  repeat split; try apply overwrite_spec.
  exact (update_user_assignments svc user_id user rt l rest w1 old Hsvc Hold).
Qed.

(** C6.  An update request is answered 404 when the lookup finds nothing
    (returns a false value of any kind); when it finds a record, 400 if the
    service's update returns a false value, and otherwise 200 with the
    record as it then is. *)
Theorem update_user_status {D} (svc : UserService.t D)
    (user_id : Z) (user : UserUpdate.t) (rt : Runtime D) :
  (∀ existing_user w1,
     UserService.get_users svc (Some (IdInt user_id)) (world rt)
     = (Ok existing_user, w1) →
     truthy existing_user = false →
     PUT_user svc user_id user rt
     = (mkResponse HTTP_404_NOT_FOUND (CDict [("detail", "User not found")]) [],
        mkRuntime w1 (trace rt ++ [EvEndpoint "update_user";
                                   EvGetUsers (Some (IdInt user_id))])))
  ∧ (∀ l rest w1 old updated w2,
       UserService.get_users svc (Some (IdInt user_id)) (world rt)
       = (Ok (PyList (Ref l :: rest)), w1) →
       objects w1 !! l = Some old →
       UserService.update_user svc (PyObj (Ref l))
         (set_object l (partial_update user old) w1) = (Ok updated, w2) →
       let rt2 := mkRuntime w2 (trace rt ++ [EvEndpoint "update_user";
                                             EvGetUsers (Some (IdInt user_id));
                                             EvUpdateUser (PyObj (Ref l))]) in
       (truthy updated = false →
        PUT_user svc user_id user rt
        = (mkResponse HTTP_400_BAD_REQUEST
             (CDict [("detail", "Failed to update user")]) [], rt2))
       ∧ (truthy updated = true →
          ∀ u, objects w2 !! l = Some u →
               PUT_user svc user_id user rt
               = (mkResponse HTTP_200_OK (CModel u) [], rt2))).
Proof.
  split.
  - intros existing_user w1 Hsvc Hf.
    apply (route_raise "update_user" HTTP_200_OK _ rt
             (HTTPException HTTP_404_NOT_FOUND "User not found" [])).
    unfold update_user. unfold_monad. simpl. rewrite Hsvc. simpl.
    rewrite Hf. simpl. by rewrite <- app_assoc.
  - intros l rest w1 old updated w2 Hsvc Hold Hupd rt2.
    pose proof (update_user_assignments svc user_id user
                  (entered "update_user" rt) l rest w1 old Hsvc Hold) as Hrun.
    unfold mbind, M_bind, call in Hrun. simpl in Hrun. rewrite Hupd in Hrun.
    rewrite <- !app_assoc in Hrun. simpl in Hrun.
    split.
    + intros Hf. rewrite Hf in Hrun. simpl in Hrun.
      exact (route_raise "update_user" HTTP_200_OK _ rt
               (HTTPException HTTP_400_BAD_REQUEST "Failed to update user" [])
               _ Hrun).
    + intros Ht u Hu. rewrite Ht in Hrun. simpl in Hrun.
      apply (route_return "update_user" HTTP_200_OK _ rt _ _ _ _ Hrun).
      by apply serialize_obj.
Qed.

(** The lookup returned a true value that is not a list of records: the
    subscript, or the first attribute access after it, fails. *)
Lemma update_user_not_a_record_list {D} (svc : UserService.t D) user_id user
    (rt : Runtime D) existing_user w1 :
  UserService.get_users svc (Some (IdInt user_id)) (world rt)
  = (Ok existing_user, w1) →
  truthy existing_user = true →
  (∀ l rest, existing_user ≠ PyList (Ref l :: rest)) →
  ∃ e, (e = TypeError ∨ e = AttributeError)
       ∧ update_user svc user_id user rt
         = (Raise e, mkRuntime w1 (trace rt ++ [EvGetUsers (Some (IdInt user_id))])).
Proof.
  intros Hsvc Ht Hne. unfold update_user. unfold_monad. rewrite Hsvc.
  destruct existing_user as [|b|n|[|a s]|r|[|[l] rest]]; simpl in *;
    try discriminate; rewrite ?Ht; simpl.
  - exists TypeError. split; [by left|done].
  - exists TypeError. split; [by left|done].
  - exists AttributeError. split; [by right|].
    by destruct (UserUpdate.name user) as [[|a' s']|].
  - exists TypeError. split; [by left|done].
  - by destruct (Hne l rest).
Qed.

(** C7.  The update handler resolves the user by calling the service's list
    operation with the integer of the path where the operation expects a
    UUID.  The answer to that call decides what the handler does: a failure
    of the call is raised on, a false answer gives 404, and for a list of
    records the first one is assigned to and handed to the service's
    update; in each case the session is the one that call left.  The call
    is made first and once, and what the handler does depends on the
    service through the answer to that call (and through its update
    operation) only. *)
Theorem update_user_looks_up_path_int_as_uuid {D} (svc : UserService.t D)
    (user_id : Z) (user : UserUpdate.t) (rt : Runtime D) :
  (∀ e w1,
     UserService.get_users svc (Some (IdInt user_id)) (world rt)
     = (Failed e, w1) →
     update_user svc user_id user rt
     = (Raise (StoreError e),
        mkRuntime w1 (trace rt ++ [EvGetUsers (Some (IdInt user_id))])))
  ∧ (∀ existing_user w1,
       UserService.get_users svc (Some (IdInt user_id)) (world rt)
       = (Ok existing_user, w1) →
       truthy existing_user = false →
       update_user svc user_id user rt
       = (Raise (HTTPException HTTP_404_NOT_FOUND "User not found" []),
          mkRuntime w1 (trace rt ++ [EvGetUsers (Some (IdInt user_id))])))
  ∧ (∀ l rest w1 old,
       UserService.get_users svc (Some (IdInt user_id)) (world rt)
       = (Ok (PyList (Ref l :: rest)), w1) →
       objects w1 !! l = Some old →
       update_user svc user_id user rt
       = (updated ← call (EvUpdateUser (PyObj (Ref l)))
                         (UserService.update_user svc (PyObj (Ref l)));
          if negb (truthy updated) then
            raise (HTTPException HTTP_400_BAD_REQUEST "Failed to update user" [])
          else mret (RObj (Ref l)))
           (mkRuntime (set_object l (partial_update user old) w1)
                      (trace rt ++ [EvGetUsers (Some (IdInt user_id))])))
  ∧ (∃ tail,
       trace (update_user svc user_id user rt).2
       = (trace rt ++ EvGetUsers (Some (IdInt user_id)) :: tail)%list
       ∧ ∀ filter, EvGetUsers filter ∉ tail)
  ∧ (∀ svc' : UserService.t D,
       UserService.get_users svc (Some (IdInt user_id))
       = UserService.get_users svc' (Some (IdInt user_id)) →
       UserService.update_user svc = UserService.update_user svc' →
       update_user svc user_id user rt = update_user svc' user_id user rt).
Proof.
  split; [|split; [|split; [|split]]].
  - intros e w1 Hsvc. unfold update_user. unfold_monad. by rewrite Hsvc.
  - intros existing_user w1 Hsvc Hf. unfold update_user. unfold_monad.
    rewrite Hsvc. by rewrite Hf.
  - intros l rest w1 old Hsvc Hold.
    exact (update_user_assignments svc user_id user rt l rest w1 old Hsvc Hold).
  - destruct (UserService.get_users svc (Some (IdInt user_id)) (world rt))
      as [[existing_user|e] w1] eqn:Hsvc.
    + destruct (truthy existing_user) eqn:Ht.
      * destruct existing_user as [|b|n|s|r|[|[l] rest]];
          try (destruct (update_user_not_a_record_list svc user_id user rt _ w1
                           Hsvc Ht ltac:(discriminate)) as (e & _ & ->);
               exists []; split; [done|]; intros f Hin;
               by apply elem_of_nil in Hin).
        destruct (objects w1 !! l) as [old|] eqn:Hl.
        -- rewrite (update_user_assignments svc user_id user rt l rest w1 old
                      Hsvc Hl).
           unfold mbind, M_bind, call. simpl.
           destruct (UserService.update_user svc (PyObj (Ref l)) _)
             as [[updated|e] w2];
             [destruct (truthy updated)|]; simpl;
             exists [EvUpdateUser (PyObj (Ref l))]; rewrite <- app_assoc;
             (split; [done|]); intros f Hin;
             apply list_elem_of_singleton in Hin; discriminate.
        -- rewrite (update_user_dangling svc user_id user rt l rest w1 Hsvc Hl).
           exists []. split; [done|]. intros f Hin; by apply elem_of_nil in Hin.
      * exists []. split; [|intros f Hin; by apply elem_of_nil in Hin].
        unfold update_user. unfold_monad. rewrite Hsvc. by rewrite Ht.
    + exists []. split; [|intros f Hin; by apply elem_of_nil in Hin].
      unfold update_user. unfold_monad. by rewrite Hsvc.
  - intros svc' Hget Hupd. unfold update_user. by rewrite Hget, Hupd.
Qed.

(** *** Deleting a user *)

Ltac run_route :=
  unfold route, run_dependencies, serialize, error_response; unfold_monad; simpl.

(** Case analysis on what a lookup returned: failure, or one of the
    values, the integers by sign and the lists and strings by emptiness. *)
Ltac destruct_lookup svc filter rt Hsvc :=
  destruct (UserService.get_users svc filter (world rt))
    as [[existing_user|e] w1] eqn:Hsvc;
  [destruct existing_user as [|[|]|[|p|p]|[|a s]|r|[|[l] rest]]|].

(** C4.  A delete request whose lookup finds nothing (returns a false value
    of any kind, the empty list among them) is answered 404 (so not 204),
    and nothing is deleted.  The answer is 400 only if the lookup found a
    record and the service's delete, called with that record's UUID, raised
    [NoResultFound]; and then it is 400. *)
Theorem delete_user_not_found {D} (svc : UserService.t D)
    (user_id : UUID) (rt : Runtime D) :
  (∀ existing_user w1,
     UserService.get_users svc (Some (IdUuid user_id)) (world rt)
     = (Ok existing_user, w1) →
     truthy existing_user = false →
     DELETE_user svc user_id rt
     = (mkResponse HTTP_404_NOT_FOUND (CDict [("detail", "User not found")]) [],
        mkRuntime w1 (trace rt ++ [EvEndpoint "delete_user";
                                   EvGetUsers (Some (IdUuid user_id))]))
     ∧ status (DELETE_user svc user_id rt).1 ≠ HTTP_204_NO_CONTENT)
  ∧ (status (DELETE_user svc user_id rt).1 = HTTP_400_BAD_REQUEST ↔
     ∃ l rest w1 u w2,
       UserService.get_users svc (Some (IdUuid user_id)) (world rt)
       = (Ok (PyList (Ref l :: rest)), w1)
       ∧ objects w1 !! l = Some u
       ∧ UserService.delete_user svc (UserModel.uuid u) w1
         = (Failed NoResultFound, w2)).
Proof.
  split.
  - intros existing_user w1 Hsvc Hf.
    assert (DELETE_user svc user_id rt
            = (mkResponse HTTP_404_NOT_FOUND
                 (CDict [("detail", "User not found")]) [],
               mkRuntime w1 (trace rt ++ [EvEndpoint "delete_user";
                                          EvGetUsers (Some (IdUuid user_id))])))
      as Hresp.
    { unfold DELETE_user, delete_user. run_route. rewrite Hsvc. simpl.
      rewrite Hf. simpl. by rewrite <- app_assoc. }
    split; [exact Hresp|]. rewrite Hresp. simpl. discriminate.
  - unfold DELETE_user, delete_user. run_route.
    destruct_lookup svc (Some (IdUuid user_id)) rt Hsvc; simpl;
      try (split; [discriminate|]; intros (?&?&?&?&?&?&?); discriminate).
    destruct (objects w1 !! l) as [u|] eqn:Hl; simpl.
    + destruct (UserService.delete_user svc (UserModel.uuid u) w1)
        as [[[]|[|msg]] w2] eqn:Hdel; simpl.
      * split; [discriminate|]. intros (l'&rest'&w1'&u'&w2'&Heq&Hu&Hd).
        inversion Heq; subst. rewrite Hl in Hu. inversion Hu; subst.
        rewrite Hdel in Hd. discriminate.
      * split; [|done]. intros _. by exists l, rest, w1, u, w2.
      * split; [discriminate|]. intros (l'&rest'&w1'&u'&w2'&Heq&Hu&Hd).
        inversion Heq; subst. rewrite Hl in Hu. inversion Hu; subst.
        rewrite Hdel in Hd. discriminate.
    + split; [discriminate|]. intros (l'&rest'&w1'&u'&w2'&Heq&Hu&Hd).
      inversion Heq; subst. rewrite Hl in Hu. discriminate.
Qed.

(** *** Logging in *)

(** C3.  When the service's credential check returns a false value, the
    login request is answered 401 with a [WWW-Authenticate: Bearer] header
    and a [detail] body; the only call made is the credential check, so no
    access token is created, and none is returned. *)
Theorem login_rejects_unverified {D} (constants : Settings)
    (svc : UserService.t D)
    (jwt_encode : gmap string claim → string → string → string)
    (form_data : LoginForm.t) (rt : Runtime D) (user : pyval) (w1 : World D) :
  UserService.verify_user svc (LoginForm.username form_data)
    (LoginForm.password form_data) (world rt) = (Ok user, w1) →
  truthy user = false →
  POST_login constants svc jwt_encode form_data rt
  = (mkResponse HTTP_401_UNAUTHORIZED
       (CDict [("detail", "Invalid credentials")])
       [("WWW-Authenticate", "Bearer")],
     mkRuntime w1
       (trace rt ++ [EvEndpoint "login";
                     EvVerifyUser (LoginForm.username form_data)
                                  (LoginForm.password form_data)])).
Proof.
  intros Hsvc Hf. unfold POST_login, login. run_route.
  rewrite Hsvc. simpl. rewrite Hf. simpl. by rewrite <- app_assoc.
Qed.

Lemma timedelta_minutes_in_range {D} (m : Z) (rt : Runtime D) :
  (-1439999998560 ≤ m ≤ 1439999999999)%Z →
  timedelta_minutes m rt = (Return (60 * m)%Z, rt).
Proof.
  intros [Hlo Hhi]. unfold timedelta_minutes, MAX_DELTA_DAYS.
  assert (-999999999 ≤ m / 1440)%Z
    by (apply Z.div_le_lower_bound; lia).
  assert (m / 1440 < 1000000000)%Z
    by (apply Z.div_lt_upper_bound; lia).
  replace (Z.leb (Z.abs (m / 1440)) 999999999) with true
    by (symmetry; apply Z.leb_le; lia).
  done.
Qed.

Lemma timedelta_minutes_out_of_range {D} (m : Z) (rt : Runtime D) :
  (m < -1439999998560 ∨ 1439999999999 < m)%Z →
  timedelta_minutes m rt = (Raise OverflowError, rt).
Proof.
  intros Hm. unfold timedelta_minutes, MAX_DELTA_DAYS.
  assert (m / 1440 < -999999999 ∨ 999999999 < m / 1440)%Z as Hd.
  { destruct Hm as [Hlo|Hhi].
    - left. apply Z.div_lt_upper_bound; lia.
    - right. apply Z.lt_le_trans with (1000000000)%Z; [lia|].
      apply Z.div_le_lower_bound; lia. }
  replace (Z.leb (Z.abs (m / 1440)) 999999999) with false
    by (symmetry; apply Z.leb_gt; lia).
  done.
Qed.

(** C1, as amended.  When the service's credential check returns a user
    record, and the configured number of minutes is one a [timedelta] can
    hold, the login request is answered 200 with an [access_token] and
    [token_type: bearer]; the token is the claims [sub], the email of that
    record, and [exp], the clock plus the configured number of minutes,
    signed with the configured secret and algorithm. *)
Theorem login_issues_token {D} (constants : Settings)
    (svc : UserService.t D)
    (jwt_encode : gmap string claim → string → string → string)
    (form_data : LoginForm.t) (rt : Runtime D)
    (l : loc) (w1 : World D) (u : UserModel.t) :
  UserService.verify_user svc (LoginForm.username form_data)
    (LoginForm.password form_data) (world rt) = (Ok (PyObj (Ref l)), w1) →
  objects w1 !! l = Some u →
  (-1439999998560 ≤ ACCESS_TOKEN_EXPIRE_MINUTES constants ≤ 1439999999999)%Z →
  let expire := clock w1 + 60 * ACCESS_TOKEN_EXPIRE_MINUTES constants in
  let payload : gmap string claim :=
    <["exp" := ClaimInt expire]> {[ "sub" := ClaimStr (UserModel.email u) ]} in
  let access_token :=
    jwt_encode payload (SECRET_KEY constants) (ALGORITHM constants) in
  POST_login constants svc jwt_encode form_data rt
  = (mkResponse HTTP_200_OK
       (CDict [("access_token", access_token); ("token_type", "bearer")]) [],
     mkRuntime w1
       (trace rt ++ [EvEndpoint "login";
                     EvVerifyUser (LoginForm.username form_data)
                                  (LoginForm.password form_data);
                     EvCreateAccessToken
                       {[ "sub" := ClaimStr (UserModel.email u) ]}
                       (60 * ACCESS_TOKEN_EXPIRE_MINUTES constants)])).
Proof.
  intros Hsvc Hu Hrange expire payload access_token.
  unfold POST_login, route, run_dependencies, login.
  unfold mbind, M_bind, mret, M_ret, enter, call, raise. simpl.
  rewrite Hsvc. simpl.
  rewrite (timedelta_minutes_in_range _ _ Hrange).
  unfold getattr_of, getattr, AuthUtil_create_access_token, serialize. simpl.
  rewrite Hu. simpl. by rewrite <- !app_assoc.
Qed.

(** C1, the statement without the proviso fails: with a lifetime of
    1440000000000 minutes, the first that a [timedelta] cannot hold, the
    credentials of Alice verify and the answer is 500, without a token. *)
Lemma login_issues_token_counterexample :
  UserService.verify_user InMemory.service "a@x.com" "p" InMemory.world0
  = (Ok (PyObj (Ref 1%nat)), set_object 1%nat InMemory.alice InMemory.world0)
  ∧ objects (set_object 1%nat InMemory.alice InMemory.world0) !! 1%nat
    = Some InMemory.alice
  ∧ (POST_login Fixtures.settings_overflow InMemory.service InMemory.toy_encode
       (LoginForm.Build "a@x.com" "p") InMemory.rt0).1
    = internal_server_error
  ∧ status (POST_login Fixtures.settings_overflow InMemory.service
              InMemory.toy_encode (LoginForm.Build "a@x.com" "p")
              InMemory.rt0).1 ≠ HTTP_200_OK.
Proof.
  split; [vm_compute; reflexivity|]. split; [vm_compute; reflexivity|].
  split; [vm_compute; reflexivity|]. vm_compute. discriminate.
Qed.

(** *** The protected route *)

(** C10.  Whatever the dependency is and whatever it resolves to, two
    requests that pass it get the same response: 200 with the fixed
    message.  The endpoint function takes no argument. *)
Theorem protected_route_same_for_every_user {D A} (dependency dependency' : M D A)
    (rt rt' : Runtime D) (user user' : A) (rt1 rt1' : Runtime D) :
  dependency rt = (Return user, rt1) →
  dependency' rt' = (Return user', rt1') →
  (GET_protected_route_with dependency rt).1
  = mkResponse HTTP_200_OK (CDict [("message", "This is a protected route")]) []
  ∧ (GET_protected_route_with dependency' rt').1
    = (GET_protected_route_with dependency rt).1.
Proof.
  intros Hd Hd'. unfold GET_protected_route_with, protected_route. run_route.
  by rewrite Hd, Hd'.
Qed.

Ltac run_protected_route :=
  unfold GET_protected_route, GET_protected_route_with, protected_route,
    get_current_user, AuthUtil_decode_subject in *;
  run_route.

(** C2.  With a token that decodes under the configured secret and
    algorithm, is not expired, and whose subject resolves to a user, the
    protected route answers 200 with the fixed message.  With no token, a
    token that does not decode, an expired one, one whose expiry is not a
    number, one without a subject, or one whose subject resolves to no
    user, it answers 401.  It answers 200 only for a token that is valid in
    all these respects, and 200 or 401 unless the lookup of the subject
    itself fails.  Whenever it answers 401, the endpoint function was not
    entered. *)
Theorem protected_route_requires_valid_token {D} (constants : Settings)
    (svc : UserService.t D)
    (jwt_decode : string → string → string → option (gmap string claim))
    (token : option string) (rt : Runtime D) :
  (∀ tok payload expire email user w1,
     token = Some tok →
     jwt_decode tok (SECRET_KEY constants) (ALGORITHM constants) = Some payload →
     payload !! "exp" = Some (ClaimInt expire) →
     (clock (world rt) ≤ expire)%Z →
     payload !! "sub" = Some (ClaimStr email) →
     UserService.get_user_by_email svc email (world rt) = (Ok (Some user), w1) →
     GET_protected_route constants svc jwt_decode token rt
     = (mkResponse HTTP_200_OK
          (CDict [("message", "This is a protected route")]) [],
        mkRuntime w1 (trace rt ++ [EvGetUserByEmail email;
                                   EvEndpoint "protected_route"])))
  ∧ ((token = None
      ∨ ∃ tok, token = Some tok
          ∧ (jwt_decode tok (SECRET_KEY constants) (ALGORITHM constants) = None
             ∨ ∃ payload expire,
                 jwt_decode tok (SECRET_KEY constants) (ALGORITHM constants)
                 = Some payload
                 ∧ payload !! "exp" = Some (ClaimInt expire)
                 ∧ (expire < clock (world rt))%Z)) →
     GET_protected_route constants svc jwt_decode token rt
     = (error_response credentials_exception, rt)
     ∧ status (error_response credentials_exception) = HTTP_401_UNAUTHORIZED)
  ∧ (∀ tok payload,
       token = Some tok →
       jwt_decode tok (SECRET_KEY constants) (ALGORITHM constants)
       = Some payload →
       (∃ s, payload !! "exp" = Some (ClaimStr s))
       ∨ (∀ email, payload !! "sub" ≠ Some (ClaimStr email)) →
       GET_protected_route constants svc jwt_decode token rt
       = (error_response credentials_exception, rt))
  ∧ (∀ tok payload email w1,
       token = Some tok →
       jwt_decode tok (SECRET_KEY constants) (ALGORITHM constants)
       = Some payload →
       payload !! "sub" = Some (ClaimStr email) →
       UserService.get_user_by_email svc email (world rt) = (Ok None, w1) →
       (GET_protected_route constants svc jwt_decode token rt).1
       = error_response credentials_exception
       ∧ ((∀ expire, payload !! "exp" = Some (ClaimInt expire) →
                     (clock (world rt) ≤ expire)%Z) →
          (∀ s, payload !! "exp" ≠ Some (ClaimStr s)) →
          GET_protected_route constants svc jwt_decode token rt
          = (error_response credentials_exception,
             mkRuntime w1 (trace rt ++ [EvGetUserByEmail email]))))
  ∧ (status (GET_protected_route constants svc jwt_decode token rt).1
     = HTTP_200_OK →
     ∃ tok payload email user w1,
       token = Some tok
       ∧ jwt_decode tok (SECRET_KEY constants) (ALGORITHM constants)
         = Some payload
       ∧ (∀ expire, payload !! "exp" = Some (ClaimInt expire) →
                    (clock (world rt) ≤ expire)%Z)
       ∧ (∀ s, payload !! "exp" ≠ Some (ClaimStr s))
       ∧ payload !! "sub" = Some (ClaimStr email)
       ∧ UserService.get_user_by_email svc email (world rt)
         = (Ok (Some user), w1))
  ∧ (status (GET_protected_route constants svc jwt_decode token rt).1
     = HTTP_200_OK
     ∨ status (GET_protected_route constants svc jwt_decode token rt).1
       = HTTP_401_UNAUTHORIZED
     ∨ ∃ tok payload email e w1,
         token = Some tok
         ∧ jwt_decode tok (SECRET_KEY constants) (ALGORITHM constants)
           = Some payload
         ∧ payload !! "sub" = Some (ClaimStr email)
         ∧ UserService.get_user_by_email svc email (world rt) = (Failed e, w1))
  ∧ (status (GET_protected_route constants svc jwt_decode token rt).1
     = HTTP_401_UNAUTHORIZED →
     ∃ evs,
       trace (GET_protected_route constants svc jwt_decode token rt).2
       = (trace rt ++ evs)%list
       ∧ EvEndpoint "protected_route" ∉ evs).
Proof.
  split; [|split; [|split; [|split; [|split; [|split]]]]].
  - intros tok payload expire email user w1 -> Hdec Hexp Hle Hsub Hsvc.
    run_protected_route. rewrite Hdec, Hexp, Hsub.
    replace (Z.ltb expire (clock (world rt))) with false
      by (symmetry; apply Z.ltb_ge; lia).
    rewrite Hsvc. simpl. by rewrite <- app_assoc.
  - intros [->|(tok & -> & [Hdec|(payload & expire & Hdec & Hexp & Hlt)])];
      run_protected_route.
    + done.
    + by rewrite Hdec.
    + rewrite Hdec, Hexp.
      replace (Z.ltb expire (clock (world rt))) with true
        by (symmetry; apply Z.ltb_lt; lia).
      done.
  - intros tok payload -> Hdec [[s Hexp]|Hsub]; run_protected_route;
      rewrite Hdec.
    + by rewrite Hexp.
    + destruct (match payload !! "exp" with
                | Some (ClaimInt expire) => Z.ltb expire (clock (world rt))
                | Some (ClaimStr _) => true
                | None => false
                end); [done|].
      destruct (payload !! "sub") as [[email|n]|]; try done.
      by destruct (Hsub email).
  - intros tok payload email w1 -> Hdec Hsub Hsvc. split.
    + run_protected_route. rewrite Hdec, Hsub.
      destruct (match payload !! "exp" with
                | Some (ClaimInt expire) => Z.ltb expire (clock (world rt))
                | Some (ClaimStr _) => true
                | None => false
                end); [done|].
      by rewrite Hsvc.
    + intros Hle Hnum. run_protected_route. rewrite Hdec, Hsub.
      destruct (payload !! "exp") as [[s|expire]|] eqn:Hexp.
      * by destruct (Hnum s).
      * replace (Z.ltb expire (clock (world rt))) with false
          by (symmetry; apply Z.ltb_ge; by apply Hle).
        by rewrite Hsvc.
      * by rewrite Hsvc.
  - run_protected_route.
    destruct token as [tok|]; simpl; [|discriminate].
    destruct (jwt_decode tok (SECRET_KEY constants) (ALGORITHM constants))
      as [payload|] eqn:Hdec; simpl; [|discriminate].
    destruct (payload !! "exp") as [[s|expire]|] eqn:Hexp; simpl;
      [discriminate| |].
    + destruct (Z.ltb expire (clock (world rt))) eqn:Hlt; simpl; [discriminate|].
      destruct (payload !! "sub") as [[email|n]|] eqn:Hsub; simpl;
        try discriminate.
      destruct (UserService.get_user_by_email svc email (world rt))
        as [[[user|]|e] w1] eqn:Hsvc; simpl; try discriminate.
      intros _. exists tok, payload, email, user, w1.
      split; [done|]. split; [done|]. rewrite Hexp.
      split; [intros expire' [= <-]; by apply Z.ltb_ge|].
      split; [intros s; discriminate|]. done.
    + destruct (payload !! "sub") as [[email|n]|] eqn:Hsub; simpl;
        try discriminate.
      destruct (UserService.get_user_by_email svc email (world rt))
        as [[[user|]|e] w1] eqn:Hsvc; simpl; try discriminate.
      intros _. exists tok, payload, email, user, w1.
      split; [done|]. split; [done|]. rewrite Hexp.
      split; [intros expire'; discriminate|].
      split; [intros s; discriminate|]. done.
  - run_protected_route.
    destruct token as [tok|]; simpl; [|by right; left].
    destruct (jwt_decode tok (SECRET_KEY constants) (ALGORITHM constants))
      as [payload|] eqn:Hdec; simpl; [|by right; left].
    destruct (match payload !! "exp" with
              | Some (ClaimInt expire) => Z.ltb expire (clock (world rt))
              | Some (ClaimStr _) => true
              | None => false
              end); simpl; [by right; left|].
    destruct (payload !! "sub") as [[email|n]|] eqn:Hsub; simpl;
      try (by right; left).
    destruct (UserService.get_user_by_email svc email (world rt))
      as [[[user|]|e] w1] eqn:Hsvc; simpl.
    + by left.
    + by right; left.
    + right; right. by exists tok, payload, email, e, w1.
  - intros Hst. revert Hst. run_protected_route.
    destruct token as [tok|]; simpl;
      [|intros _; exists []; split; [by rewrite app_nil_r | apply not_elem_of_nil]].
    destruct (jwt_decode tok (SECRET_KEY constants) (ALGORITHM constants))
      as [payload|]; simpl;
      [|intros _; exists []; split; [by rewrite app_nil_r | apply not_elem_of_nil]].
    destruct (match payload !! "exp" with
              | Some (ClaimInt expire) => Z.ltb expire (clock (world rt))
              | Some (ClaimStr _) => true
              | None => false
              end); simpl;
      [intros _; exists []; split; [by rewrite app_nil_r | apply not_elem_of_nil]|].
    destruct (payload !! "sub") as [[email|n]|]; simpl;
      try (intros _; exists []; split; [by rewrite app_nil_r | apply not_elem_of_nil]).
    destruct (UserService.get_user_by_email svc email (world rt))
      as [[[user|]|e] w1]; simpl.
    + discriminate.
    + intros _. exists [EvGetUserByEmail email]. split; [done|].
      intros Hin. apply list_elem_of_singleton in Hin. discriminate.
    + discriminate.
Qed.

(** *** The settings *)

Section SettingsCache.

Context {D : Type}.
Variable read_field : gmap string string → string → option string.
Variable validate_int : string → option Z.
Variable user_service : UserService.t D.
Variable jwt_encode : gmap string claim → string → string → string.
Variable jwt_decode : string → string → string → option (gmap string claim).

Local Abbreviation step :=
  (step read_field validate_int user_service jwt_encode jwt_decode).
Local Abbreviation run :=
  (run read_field validate_int user_service jwt_encode jwt_decode).

Lemma start_loaded environ (rt : Runtime D) (p : Process D) :
  start read_field validate_int environ rt = Some p →
  loaded p
  ∧ Settings_init read_field validate_int environ = Return (constants_obj p).2
  ∧ runtime p = rt.
Proof.
  unfold start, import_config, get_settings, loaded. simpl.
  destruct (Settings_init read_field validate_int environ) as [s|e]; [|done].
  intros [= <-]. done.
Qed.

Lemma step_loaded a (p : Process D) :
  loaded p →
  loaded (step a p).2
  ∧ constants_obj (step a p).2 = constants_obj p
  ∧ ∀ res, (step a p).1 = ObsSettings res → res = Return (constants_obj p).
Proof.
  unfold loaded. intros Hp. destruct a as [environ|req]; simpl.
  - unfold get_settings. rewrite Hp. simpl.
    split; [done|]. split; [done|]. by intros res [= <-].
  - destruct (serve _ _ _ _ _ _) as [resp rt']. simpl.
    split; [done|]. split; [done|]. intros res. discriminate.
Qed.

Lemma run_loaded acts (p : Process D) :
  loaded p →
  loaded (run acts p).2
  ∧ constants_obj (run acts p).2 = constants_obj p
  ∧ ∀ res, ObsSettings res ∈ (run acts p).1 → res = Return (constants_obj p).
Proof.
  revert p. induction acts as [|a acts IH]; intros p Hp; simpl.
  - split; [done|]. split; [done|]. intros res Hin. by apply elem_of_nil in Hin.
  - destruct (step_loaded a p Hp) as (Hp' & Hc' & Ho).
    destruct (step a p) as [o p'] eqn:Hstep. simpl in *.
    destruct (IH p' Hp') as (Hp'' & Hc'' & Hos).
    destruct (run acts p') as [os p''] eqn:Hrun. simpl in *.
    split; [done|]. split; [congruence|].
    intros res Hin. apply elem_of_cons in Hin as [Heq|Hin].
    + by apply Ho.
    + rewrite <- Hc'. by apply Hos.
Qed.

End SettingsCache.

(** C9.  In a process that has imported [app.config], whatever calls of
    [get_settings()] and whatever requests follow, under whatever the
    environment has become: the environment has been read once, at the
    import; every call returns the one object made then, the object bound
    to [constants]; and the cached object is never replaced or changed. *)
Theorem get_settings_reads_environment_once {D}
    (read_field : gmap string string → string → option string)
    (validate_int : string → option Z)
    (svc : UserService.t D)
    (jwt_encode : gmap string claim → string → string → string)
    (jwt_decode : string → string → string → option (gmap string claim))
    (environ : gmap string string) (rt : Runtime D) (p : Process D)
    (acts : list action) :
  start read_field validate_int environ rt = Some p →
  let result := run read_field validate_int svc jwt_encode jwt_decode acts p in
  Settings_init read_field validate_int environ = Return (constants_obj p).2
  ∧ env_reads (config result.2) = 1%nat
  ∧ cache (config result.2) = Some (constants_obj p)
  ∧ constants_obj result.2 = constants_obj p
  ∧ ∀ res, ObsSettings res ∈ result.1 → res = Return (constants_obj p).
Proof.
  intros Hstart result.
  destruct (start_loaded read_field validate_int environ rt p Hstart)
    as (Hp & Hinit & _).
  destruct (run_loaded read_field validate_int svc jwt_encode jwt_decode acts p Hp)
    as (Hp' & Hc & Hobs).
  fold result in Hp', Hc, Hobs. unfold loaded in Hp'. rewrite Hp', Hc. simpl.
  by repeat split.
Qed.

(** *** The properties on the in-memory service *)

Import InMemory.

(** Loading rows into the session only adds objects. *)
Lemma load_keeps (u : UserModel.t) (w : World Table) l x :
  objects w !! l = Some x → objects (load u w).2 !! l = Some x.
Proof.
  intros Hl. unfold load.
  destruct (objects w !! loc_of u) eqn:Hu; simpl; [done|].
  rewrite lookup_insert_ne; [done|]. intros <-. congruence.
Qed.

Lemma load_live (u : UserModel.t) (w : World Table) :
  is_Some (deref (load u w).2 (load u w).1).
Proof.
  unfold load. destruct (objects w !! loc_of u) eqn:Hu; simpl.
  - by rewrite Hu.
  - rewrite lookup_insert_eq. by eexists.
Qed.

Lemma load_all_keeps rows (w : World Table) l x :
  objects w !! l = Some x → objects (load_all rows w).2 !! l = Some x.
Proof.
  revert w. induction rows as [|u rows IH]; intros w Hl; simpl; [done|].
  pose proof (load_keeps u w l x Hl) as Hl'.
  destruct (load u w) as [r w']. simpl in Hl'.
  specialize (IH w' Hl'). by destruct (load_all rows w').
Qed.

Lemma load_all_live rows (w : World Table) :
  is_Some (lookup_all (load_all rows w).2 (load_all rows w).1).
Proof.
  revert w. induction rows as [|u rows IH]; intros w; simpl; [by eexists|].
  pose proof (load_live u w) as [x Hx].
  destruct (load u w) as [[l] w'] eqn:Hload. simpl in Hx.
  pose proof (load_all_keeps rows w' l x Hx) as Hx'.
  destruct (IH w') as [us Hus].
  destruct (load_all rows w') as [rs w'']. simpl in *.
  rewrite Hx', Hus. by eexists.
Qed.

(** With the in-memory service, whose list operation always returns, the
    list route answers 200 in every state of the session. *)
Lemma GET_users_in_memory_total (rt : Runtime Table) :
  ∃ us rt', GET_users service rt = (mkResponse HTTP_200_OK (CModels us) [], rt').
Proof.
  pose proof (load_all_live (List.filter (matches None) (store (world rt)))
                (world rt)) as [us Hus].
  destruct (load_all (List.filter (matches None) (store (world rt))) (world rt))
    as [rs w'] eqn:Hload. simpl in Hus.
  assert (UserService.get_users service None (world rt) = (Ok (PyList rs), w'))
    as Hsvc.
  { unfold service, UserService.get_users. unfold Table in *. by rewrite Hload. }
  exists us, (mkRuntime w' (trace rt ++ [EvEndpoint "get_users"; EvGetUsers None])).
  apply (route_return "get_users" HTTP_200_OK _ rt (RList rs)
           (mkRuntime w' ((trace rt ++ [EvEndpoint "get_users"])
                          ++ [EvGetUsers None]))).
  - unfold get_users. unfold_monad. unfold entered. cbn [world trace].
    rewrite Hsvc. by destruct rs.
  - rewrite <- app_assoc. by apply serialize_list.
Qed.

(** The token issued by a successful login opens the protected route for as
    long as it has not expired and its subject still resolves, provided the
    token library decodes what it encoded. *)
Lemma login_token_opens_protected_route {D} (constants : Settings)
    (svc : UserService.t D)
    (jwt_encode : gmap string claim → string → string → string)
    (jwt_decode : string → string → string → option (gmap string claim))
    (form_data : LoginForm.t) (rt rt' : Runtime D)
    (l : loc) (w1 w2 : World D) (u : UserModel.t) (user : ref) :
  (∀ payload key alg, jwt_decode (jwt_encode payload key alg) key alg = Some payload) →
  UserService.verify_user svc (LoginForm.username form_data)
    (LoginForm.password form_data) (world rt) = (Ok (PyObj (Ref l)), w1) →
  objects w1 !! l = Some u →
  (-1439999998560 ≤ ACCESS_TOKEN_EXPIRE_MINUTES constants ≤ 1439999999999)%Z →
  (clock (world rt') ≤ clock w1 + 60 * ACCESS_TOKEN_EXPIRE_MINUTES constants)%Z →
  UserService.get_user_by_email svc (UserModel.email u) (world rt')
  = (Ok (Some user), w2) →
  ∃ access_token,
    body (POST_login constants svc jwt_encode form_data rt).1
    = CDict [("access_token", access_token); ("token_type", "bearer")]
    ∧ (GET_protected_route constants svc jwt_decode (Some access_token) rt').1
      = mkResponse HTTP_200_OK
          (CDict [("message", "This is a protected route")]) [].
Proof.
  intros Hcodec Hverify Hu Hrange Hclock Hresolve. eexists. split.
  - unfold POST_login, route, run_dependencies, login.
    unfold mbind, M_bind, mret, M_ret, enter, call, raise. simpl.
    rewrite Hverify. simpl. rewrite (timedelta_minutes_in_range _ _ Hrange).
    unfold getattr_of, getattr, AuthUtil_create_access_token, serialize. simpl.
    rewrite Hu. simpl. reflexivity.
  - unfold GET_protected_route, GET_protected_route_with, protected_route,
      get_current_user, AuthUtil_decode_subject.
    run_route. rewrite Hcodec.
    rewrite lookup_insert_eq.
    rewrite lookup_insert_ne by done. rewrite lookup_singleton_eq.
    replace (Z.ltb _ (clock (world rt'))) with false
      by (symmetry; apply Z.ltb_ge; lia).
    by rewrite Hresolve.
Qed.

(** Some requests against the table of Alice and Bob. *)

Example update_unknown_id :
  (PUT_user service 7 rename_alice rt0).1
  = mkResponse HTTP_404_NOT_FOUND (CDict [("detail", "User not found")]) [].
Proof. vm_compute. reflexivity. Qed.

Example update_refused :
  (PUT_user refusing_service 1 rename_alice rt0).1
  = mkResponse HTTP_400_BAD_REQUEST (CDict [("detail", "Failed to update user")]) [].
Proof. vm_compute. reflexivity. Qed.

Example update_refused_object_changed :
  objects (world (PUT_user refusing_service 1 rename_alice rt0).2) !! 1%nat
  = Some alice_renamed
  ∧ store (world (PUT_user refusing_service 1 rename_alice rt0).2) = [alice; bob].
Proof. vm_compute. split; reflexivity. Qed.

Example delete_known_uuid :
  (DELETE_user service 17%N rt0).1 = mkResponse HTTP_204_NO_CONTENT CEmpty []
  ∧ store (world (DELETE_user service 17%N rt0).2) = [bob].
Proof. vm_compute. split; reflexivity. Qed.

Example delete_row_gone :
  (DELETE_user refusing_service 17%N rt0).1
  = mkResponse HTTP_400_BAD_REQUEST (CDict [("detail", "Failed to delete user")]) [].
Proof. vm_compute. reflexivity. Qed.

Example login_then_protected_route :
  (POST_login settings0 service toy_encode (LoginForm.Build "a@x.com" "p") rt0).1
  = mkResponse HTTP_200_OK
      (CDict [("access_token", "k:2800:a@x.com"); ("token_type", "bearer")]) []
  ∧ (GET_protected_route settings0 service toy_decode (Some "k:2800:a@x.com") rt0).1
    = mkResponse HTTP_200_OK (CDict [("message", "This is a protected route")]) [].
Proof. vm_compute. split; reflexivity. Qed.

Example protected_route_unknown_subject :
  status (GET_protected_route settings0 service toy_decode
            (Some "k:2800:c@x.com") rt0).1 = HTTP_401_UNAUTHORIZED.
Proof. vm_compute. reflexivity. Qed.

Example index_message :
  (GET_index rt0).1
  = mkResponse HTTP_200_OK (CDict [("message", "Master Server API")]) [].
Proof. vm_compute. reflexivity. Qed.


Lemma update_user_overwrites_truthy_fields_only_witness :
  ∃ after : UserModel.t,
    UserModel.name after = "AA" ∧ UserModel.role after = "user"
    ∧ UserModel.id after = 1 ∧ UserModel.uuid after = 17%N.
Proof.
  destruct (update_user_overwrites_truthy_fields_only service 1 rename_alice rt0
              1%nat [] (set_object 1%nat alice world0) alice)
    as (after & Hid & Huuid & [Hname _] & _ & [_ Hrole] & _).
  - vm_compute; reflexivity.
  - vm_compute; reflexivity.
  - exists after. repeat split.
    + specialize (Hname eq_refl). by inversion Hname.
    + exact (Hrole eq_refl).
    + exact Hid.
    + exact Huuid.
Defined.

Lemma update_user_status_witness :
  (PUT_user service 1 rename_alice rt0).1
  = mkResponse HTTP_200_OK (CModel alice_renamed) [].
Proof.
  destruct (update_user_status service 1 rename_alice rt0) as [_ H].
  destruct (H 1%nat [] (set_object 1%nat alice world0) alice (PyBool true)
              (with_store [alice_renamed; bob]
                 (set_object 1%nat alice_renamed world0))) as [_ Hok].
  - vm_compute; reflexivity.
  - vm_compute; reflexivity.
  - vm_compute; reflexivity.
  - rewrite (Hok eq_refl alice_renamed); [reflexivity | vm_compute; reflexivity].
Defined.

Lemma update_user_looks_up_path_int_as_uuid_witness :
  update_user Fixtures.failing_service 1 rename_alice rt0
  = (Raise (StoreError (OtherStoreError "down")),
     mkRuntime world0 [EvGetUsers (Some (IdInt 1))])
  ∧ update_user service 7 rename_alice rt0
    = (Raise (HTTPException HTTP_404_NOT_FOUND "User not found" []),
       mkRuntime world0 [EvGetUsers (Some (IdInt 7))])
  ∧ (update_user service 1 rename_alice rt0).1 = Return (RObj (Ref 1%nat))
  ∧ update_user service 1 rename_alice rt0
    = update_user int_only_service 1 rename_alice rt0.
Proof.
  destruct (update_user_looks_up_path_int_as_uuid Fixtures.failing_service 1
              rename_alice rt0) as (Hfail & _).
  destruct (update_user_looks_up_path_int_as_uuid service 7 rename_alice rt0)
    as (_ & Hnone & _).
  destruct (update_user_looks_up_path_int_as_uuid service 1 rename_alice rt0)
    as (_ & _ & Hfound & _ & Hsame).
  split; [|split; [|split]].
  - apply (Hfail (OtherStoreError "down") world0). reflexivity.
  - apply (Hnone (PyList []) world0); vm_compute; reflexivity.
  - rewrite (Hfound 1%nat [] (set_object 1%nat alice world0) alice);
      vm_compute; reflexivity.
  - apply (Hsame int_only_service); reflexivity.
Defined.

Lemma delete_user_not_found_witness :
  UserService.get_users service (Some (IdUuid 18%N)) world0
  = (Ok (PyList []), world0)
  ∧ status (DELETE_user service 18%N rt0).1 = HTTP_404_NOT_FOUND
  ∧ status (DELETE_user Fixtures.none_service 18%N rt0).1 = HTTP_404_NOT_FOUND.
Proof.
  assert (UserService.get_users service (Some (IdUuid 18%N)) (world rt0)
          = (Ok (PyList []), world0)) as H by (vm_compute; reflexivity).
  assert (UserService.get_users Fixtures.none_service (Some (IdUuid 18%N))
            (world rt0) = (Ok PyNone, world0)) as Hnone
    by (vm_compute; reflexivity).
  split; [exact H|].
  destruct (delete_user_not_found service 18%N rt0) as [Hnf _].
  destruct (Hnf (PyList []) world0 H eq_refl) as [Hresp _].
  destruct (delete_user_not_found Fixtures.none_service 18%N rt0) as [Hnf' _].
  destruct (Hnf' PyNone world0 Hnone eq_refl) as [Hresp' _].
  split; [by rewrite Hresp | by rewrite Hresp'].
Defined.

Lemma login_rejects_unverified_witness :
  (POST_login settings0 service toy_encode (LoginForm.Build "a@x.com" "x") rt0).1
  = mkResponse HTTP_401_UNAUTHORIZED (CDict [("detail", "Invalid credentials")])
      [("WWW-Authenticate", "Bearer")].
Proof.
  rewrite (login_rejects_unverified settings0 service toy_encode
             (LoginForm.Build "a@x.com" "x") rt0 PyNone world0);
    [reflexivity | vm_compute; reflexivity | reflexivity].
Defined.

Lemma login_issues_token_witness :
  (POST_login settings0 service toy_encode (LoginForm.Build "a@x.com" "p") rt0).1
  = mkResponse HTTP_200_OK
      (CDict [("access_token", "k:2800:a@x.com"); ("token_type", "bearer")]) [].
Proof.
  rewrite (login_issues_token settings0 service toy_encode
             (LoginForm.Build "a@x.com" "p") rt0 1%nat
             (set_object 1%nat alice world0) alice);
    [vm_compute; reflexivity | vm_compute; reflexivity | vm_compute; reflexivity
    | vm_compute; split; discriminate].
Defined.

Lemma protected_route_requires_valid_token_witness :
  (GET_protected_route settings0 service toy_decode (Some "k:2800:a@x.com") rt0).1
  = mkResponse HTTP_200_OK (CDict [("message", "This is a protected route")]) []
  ∧ (GET_protected_route settings0 service toy_decode (Some "k:999:a@x.com") rt0)
    = (error_response credentials_exception, rt0)
  ∧ (GET_protected_route settings0 service toy_decode (Some "z:2800:a@x.com") rt0)
    = (error_response credentials_exception, rt0)
  ∧ (GET_protected_route settings0 service toy_decode None rt0)
    = (error_response credentials_exception, rt0)
  ∧ (GET_protected_route settings0 service toy_decode (Some "k:2800:c@x.com") rt0)
    = (error_response credentials_exception,
       mkRuntime world0 [EvGetUserByEmail "c@x.com"]).
Proof.
  split; [|split; [|split; [|split]]].
  - destruct (protected_route_requires_valid_token settings0 service toy_decode
                (Some "k:2800:a@x.com") rt0) as [H _].
    rewrite (H "k:2800:a@x.com"
               (<["exp" := ClaimInt 2800]> {["sub" := ClaimStr "a@x.com"]})
               2800 "a@x.com" (Ref 1%nat) (set_object 1%nat alice world0));
      [reflexivity | reflexivity | vm_compute; reflexivity | vm_compute; reflexivity
      | vm_compute; discriminate | vm_compute; reflexivity | vm_compute; reflexivity].
  - destruct (protected_route_requires_valid_token settings0 service toy_decode
                (Some "k:999:a@x.com") rt0) as (_ & H & _).
    apply H. right. exists "k:999:a@x.com". split; [reflexivity|]. right.
    exists (<["exp" := ClaimInt 999]> {["sub" := ClaimStr "a@x.com"]}), 999.
    split; [vm_compute; reflexivity|]. split; [vm_compute; reflexivity|].
    vm_compute; reflexivity.
  - destruct (protected_route_requires_valid_token settings0 service toy_decode
                (Some "z:2800:a@x.com") rt0) as (_ & H & _).
    apply H. right. exists "z:2800:a@x.com". split; [reflexivity|]. left.
    vm_compute; reflexivity.
  - destruct (protected_route_requires_valid_token settings0 service toy_decode
                None rt0) as (_ & H & _).
    apply H. by left.
  - destruct (protected_route_requires_valid_token settings0 service toy_decode
                (Some "k:2800:c@x.com") rt0) as (_ & _ & _ & H & _).
    destruct (H "k:2800:c@x.com"
                (<["exp" := ClaimInt 2800]> {["sub" := ClaimStr "c@x.com"]})
                "c@x.com" world0) as [_ Hrun];
      [reflexivity | vm_compute; reflexivity | vm_compute; reflexivity
      | vm_compute; reflexivity |].
    apply Hrun.
    + intros expire Hexp. vm_compute in Hexp. injection Hexp as <-.
      vm_compute. discriminate.
    + intros s Hexp. vm_compute in Hexp. discriminate.
Defined.

Lemma protected_route_same_for_every_user_witness :
  (GET_protected_route settings0 service toy_decode (Some "k:2800:b@x.com") rt0).1
  = (GET_protected_route settings0 service toy_decode (Some "k:2800:a@x.com") rt0).1.
Proof.
  refine (proj2 (protected_route_same_for_every_user
                   (get_current_user settings0 service toy_decode
                      (Some "k:2800:a@x.com"))
                   (get_current_user settings0 service toy_decode
                      (Some "k:2800:b@x.com"))
                   rt0 rt0 (Ref 1%nat) (Ref 2%nat)
                   (mkRuntime (set_object 1%nat alice world0)
                              [EvGetUserByEmail "a@x.com"])
                   (mkRuntime (set_object 2%nat bob world0)
                              [EvGetUserByEmail "b@x.com"]) _ _));
    vm_compute; reflexivity.
Defined.

Lemma get_settings_reads_environment_once_witness :
  ∃ p : Process Table,
    start read0 validate0 environ0 rt0 = Some p
    ∧ env_reads
        (config (run read0 validate0 service toy_encode toy_decode
                   [ActGetSettings ∅; ActRequest ReqIndex;
                    ActGetSettings environ0] p).2) = 1%nat.
Proof.
  exists (mkProcess (mkConfig 1 (Some (0%nat, settings0))) (0%nat, settings0) rt0).
  assert (start read0 validate0 environ0 rt0
          = Some (mkProcess (mkConfig 1 (Some (0%nat, settings0)))
                            (0%nat, settings0) rt0)) as H
    by (vm_compute; reflexivity).
  split; [exact H|].
  exact (proj1 (proj2 (get_settings_reads_environment_once read0 validate0 service
                         toy_encode toy_decode environ0 rt0 _
                         [ActGetSettings ∅; ActRequest ReqIndex;
                          ActGetSettings environ0] H))).
Defined.

(** ** Further properties *)

(** *** Creating a user *)

(** The handler up to the call of the service's add. *)
Lemma add_user_run {D} (defaults : World D → Z * UUID)
    (service_add_user : ref → World D → answer ref * World D)
    (user : UserCreate.t) (rt : Runtime D) :
  add_user defaults service_add_user user rt
  = (added_user ← await (service_add_user (Ref (fresh (dom (objects (world rt))))));
     mret (RObj added_user))
      (mkRuntime
         (set_object (fresh (dom (objects (world rt))))
            (UserModel.Build (defaults (world rt)).1 (defaults (world rt)).2
               (UserCreate.name user) (UserCreate.email user)
               (UserCreate.role user) (UserCreate.password user))
            (world rt))
         (trace rt)).
Proof.
  unfold add_user, UserModel_new. unfold mbind at 1. unfold M_bind at 1.
  by destruct (defaults (world rt)).
Qed.

(** X1.  [add_user] builds one new object, at a reference the session did
    not use, and hands it to the service's add.  The object carries name,
    email, role and password exactly as the request has them (the password
    as it was sent), and the model's own values for id and uuid.  Nothing
    else in the session is touched before the service is called. *)
Theorem add_user_builds_record_from_request {D}
    (defaults : World D → Z * UUID)
    (service_add_user : ref → World D → answer ref * World D)
    (user : UserCreate.t) (rt : Runtime D) :
  ∃ (l : loc) (new_user : UserModel.t),
    objects (world rt) !! l = None
    ∧ UserModel.name new_user = UserCreate.name user
    ∧ UserModel.email new_user = UserCreate.email user
    ∧ UserModel.role new_user = UserCreate.role user
    ∧ UserModel.password new_user = UserCreate.password user
    ∧ (UserModel.id new_user, UserModel.uuid new_user) = defaults (world rt)
    ∧ add_user defaults service_add_user user rt
      = (added_user ← await (service_add_user (Ref l)); mret (RObj added_user))
          (mkRuntime (mkWorld (<[l := new_user]> (objects (world rt)))
                              (store (world rt)) (clock (world rt)))
                     (trace rt)).
Proof.
  exists (fresh (dom (objects (world rt)))),
    (UserModel.Build (defaults (world rt)).1 (defaults (world rt)).2
       (UserCreate.name user) (UserCreate.email user)
       (UserCreate.role user) (UserCreate.password user)).
  split.
  { apply not_elem_of_dom. apply is_fresh. }
  repeat (split; [reflexivity|]).
  split; [by destruct (defaults (world rt))|].
  apply add_user_run.
Qed.

(** X2.  The answer to [POST /user/] is the record the service's add hands
    back, as it is in the session at that moment, with status 200; when the
    add fails, the answer is 500.  The handler itself adds no failure. *)
Theorem add_user_answers_with_service_record {D}
    (defaults : World D → Z * UUID)
    (service_add_user : ref → World D → answer ref * World D)
    (user : UserCreate.t) (rt : Runtime D) :
  let l := fresh (dom (objects (world rt))) in
  let new_user :=
    UserModel.Build (defaults (world rt)).1 (defaults (world rt)).2
      (UserCreate.name user) (UserCreate.email user)
      (UserCreate.role user) (UserCreate.password user) in
  let w0 := set_object l new_user (world rt) in
  (∀ added w1 u,
     service_add_user (Ref l) w0 = (Ok (Ref added), w1) →
     objects w1 !! added = Some u →
     POST_user defaults service_add_user user rt
     = (mkResponse HTTP_200_OK (CModel u) [],
        mkRuntime w1 (trace rt ++ [EvEndpoint "add_user"])))
  ∧ (∀ e w1,
       service_add_user (Ref l) w0 = (Failed e, w1) →
       POST_user defaults service_add_user user rt
       = (mkResponse HTTP_500_INTERNAL_SERVER_ERROR
            (CText "Internal Server Error") [],
          mkRuntime w1 (trace rt ++ [EvEndpoint "add_user"]))).
Proof.
  intros l new_user w0.
  pose proof (add_user_run defaults service_add_user user (entered "add_user" rt))
    as Hrun.
  change (world (entered "add_user" rt)) with (world rt) in Hrun.
  fold l new_user w0 in Hrun. unfold mbind, M_bind, await in Hrun.
  simpl in Hrun. split.
  - intros added w1 u Hadd Hu. rewrite Hadd in Hrun.
    apply (route_return "add_user" HTTP_200_OK _ rt _ _ _ _ Hrun).
    by apply serialize_obj.
  - intros e w1 Hadd. rewrite Hadd in Hrun.
    exact (route_raise "add_user" HTTP_200_OK _ rt (StoreError e) _ Hrun).
Qed.

Lemma add_user_answers_with_service_record_witness :
  (POST_user Fixtures.defaults0 Fixtures.add0 Fixtures.carol rt0).1
  = mkResponse HTTP_200_OK (CModel Fixtures.carol_added) [].
Proof.
  destruct (add_user_answers_with_service_record Fixtures.defaults0 Fixtures.add0
              Fixtures.carol rt0) as [H _].
  rewrite (H 0%nat
             (with_store [alice; bob; Fixtures.carol_added]
                (set_object 0%nat Fixtures.carol_added world0))
             Fixtures.carol_added);
    [reflexivity | vm_compute; reflexivity | vm_compute; reflexivity].
Defined.

(** *** More on updating a user *)

Lemma set_object_same {D} l u (w : World D) :
  objects w !! l = Some u → set_object l u w = w.
Proof.
  intros H. destruct w as [objs st clk]. unfold set_object. simpl in *.
  by rewrite insert_id.
Qed.

Lemma overwrite_false new old : truthy new = false → overwrite new old = old.
Proof. intros H. unfold overwrite. by rewrite H. Qed.

Lemma overwrite_truthy new old :
  truthy (overwrite new old) = truthy new || truthy old.
Proof. unfold overwrite. by destruct new as [[|a s]|]. Qed.

Lemma overwrite_twice new old :
  overwrite new (overwrite new old) = overwrite new old.
Proof. unfold overwrite. by destruct new as [[|a s]|]. Qed.

Lemma partial_update_twice user old :
  partial_update user (partial_update user old) = partial_update user old.
Proof. unfold partial_update. simpl. by rewrite !overwrite_twice. Qed.

(** X3.  An update whose body has no true field (all omitted, or empty
    strings) changes nothing in the session: the service's update is called
    on the session exactly as the lookup left it.  The call is still made. *)
Theorem update_user_empty_body_changes_nothing {D} (svc : UserService.t D)
    (user_id : Z) (user : UserUpdate.t) (rt : Runtime D)
    (l : loc) (rest : list ref) (w1 : World D) (old : UserModel.t) :
  truthy (UserUpdate.name user) = false →
  truthy (UserUpdate.email user) = false →
  truthy (UserUpdate.role user) = false →
  truthy (UserUpdate.password user) = false →
  UserService.get_users svc (Some (IdInt user_id)) (world rt)
  = (Ok (PyList (Ref l :: rest)), w1) →
  objects w1 !! l = Some old →
  update_user svc user_id user rt
  = (updated ← call (EvUpdateUser (PyObj (Ref l)))
                        (UserService.update_user svc (PyObj (Ref l)));
     if negb (truthy updated) then
       raise (HTTPException HTTP_400_BAD_REQUEST "Failed to update user" [])
     else mret (RObj (Ref l)))
      (mkRuntime w1 (trace rt ++ [EvGetUsers (Some (IdInt user_id))])).
Proof.
  intros Hn He Hr Hp Hsvc Hold.
  rewrite (update_user_assignments svc user_id user rt l rest w1 old Hsvc Hold).
  replace (partial_update user old) with old.
  - by rewrite (set_object_same l old w1 Hold).
  - unfold partial_update.
    rewrite (overwrite_false _ _ Hn), (overwrite_false _ _ He),
      (overwrite_false _ _ Hr), (overwrite_false _ _ Hp).
    by destruct old.
Qed.

Lemma update_user_empty_body_changes_nothing_witness :
  update_user service 1 Fixtures.blank_update Fixtures.rt_renamed
  = (Return (RObj (Ref 1%nat)),
     mkRuntime Fixtures.world_renamed
       [EvGetUsers (Some (IdInt 1)); EvUpdateUser (PyObj (Ref 1%nat))]).
Proof.
  rewrite (update_user_empty_body_changes_nothing service 1 Fixtures.blank_update
             Fixtures.rt_renamed 1%nat [] Fixtures.world_renamed alice_renamed);
    vm_compute; reflexivity.
Defined.

(** X4.  An update never empties a field: in the record handed to the
    service's update, each of name, email, role and password is non-empty
    exactly when the request's value or the previous value is. *)
Theorem update_user_never_blanks_a_field {D} (svc : UserService.t D)
    (user_id : Z) (user : UserUpdate.t) (rt : Runtime D)
    (l : loc) (rest : list ref) (w1 : World D) (old : UserModel.t) :
  UserService.get_users svc (Some (IdInt user_id)) (world rt)
  = (Ok (PyList (Ref l :: rest)), w1) →
  objects w1 !! l = Some old →
  ∃ after : UserModel.t,
    truthy (UserModel.name after)
    = truthy (UserUpdate.name user) || truthy (UserModel.name old)
    ∧ truthy (UserModel.email after)
      = truthy (UserUpdate.email user) || truthy (UserModel.email old)
    ∧ truthy (UserModel.role after)
      = truthy (UserUpdate.role user) || truthy (UserModel.role old)
    ∧ truthy (UserModel.password after)
      = truthy (UserUpdate.password user) || truthy (UserModel.password old)
    ∧ update_user svc user_id user rt
      = (updated ← call (EvUpdateUser (PyObj (Ref l)))
                        (UserService.update_user svc (PyObj (Ref l)));
         if negb (truthy updated) then
           raise (HTTPException HTTP_400_BAD_REQUEST "Failed to update user" [])
         else mret (RObj (Ref l)))
          (mkRuntime (mkWorld (<[l := after]> (objects w1)) (store w1) (clock w1))
                     (trace rt ++ [EvGetUsers (Some (IdInt user_id))])).
Proof.
  intros Hsvc Hold. exists (partial_update user old).
  repeat (split; [apply overwrite_truthy|]).
  exact (update_user_assignments svc user_id user rt l rest w1 old Hsvc Hold).
Qed.

Lemma update_user_never_blanks_a_field_witness :
  ∃ after : UserModel.t,
    truthy (UserModel.role after) = true
    ∧ (update_user service 1 Fixtures.blank_update rt0).1 = Return (RObj (Ref 1%nat)).
Proof.
  destruct (update_user_never_blanks_a_field service 1 Fixtures.blank_update rt0
              1%nat [] (set_object 1%nat alice world0) alice)
    as (after & _ & _ & Hrole & _ & Hrun).
  - vm_compute; reflexivity.
  - vm_compute; reflexivity.
  - exists after. split; [exact Hrole|]. rewrite Hrun. vm_compute. reflexivity.
Defined.

(** X5.  Sending the same update again changes nothing: when the record
    found already is the result of this update, the service's update is
    called on the session exactly as the lookup left it. *)
Theorem update_user_repeated_changes_nothing {D} (svc : UserService.t D)
    (user_id : Z) (user : UserUpdate.t) (rt : Runtime D)
    (l : loc) (rest : list ref) (w1 : World D) (old : UserModel.t) :
  UserService.get_users svc (Some (IdInt user_id)) (world rt)
  = (Ok (PyList (Ref l :: rest)), w1) →
  objects w1 !! l = Some (partial_update user old) →
  update_user svc user_id user rt
  = (updated ← call (EvUpdateUser (PyObj (Ref l)))
                        (UserService.update_user svc (PyObj (Ref l)));
     if negb (truthy updated) then
       raise (HTTPException HTTP_400_BAD_REQUEST "Failed to update user" [])
     else mret (RObj (Ref l)))
      (mkRuntime w1 (trace rt ++ [EvGetUsers (Some (IdInt user_id))])).
Proof.
  intros Hsvc Hold.
  rewrite (update_user_assignments svc user_id user rt l rest w1 _ Hsvc Hold).
  rewrite partial_update_twice.
  by rewrite (set_object_same l _ w1 Hold).
Qed.

Lemma update_user_repeated_changes_nothing_witness :
  update_user service 1 rename_alice Fixtures.rt_renamed
  = (Return (RObj (Ref 1%nat)),
     mkRuntime Fixtures.world_renamed
       [EvGetUsers (Some (IdInt 1)); EvUpdateUser (PyObj (Ref 1%nat))]).
Proof.
  rewrite (update_user_repeated_changes_nothing service 1 rename_alice
             Fixtures.rt_renamed 1%nat [] Fixtures.world_renamed alice);
    vm_compute; reflexivity.
Defined.

(** *** More on deleting a user *)

(** X6.  A delete request is answered 204 exactly when the lookup found a
    record and the service's delete, called with the uuid attribute of the
    first record found, returned; the body is then empty and the session is
    as that call left it. *)
Theorem delete_user_no_content_iff {D} (svc : UserService.t D)
    (user_id : UUID) (rt : Runtime D) :
  (status (DELETE_user svc user_id rt).1 = HTTP_204_NO_CONTENT ↔
   ∃ l rest w1 u w2,
     UserService.get_users svc (Some (IdUuid user_id)) (world rt)
     = (Ok (PyList (Ref l :: rest)), w1)
     ∧ objects w1 !! l = Some u
     ∧ UserService.delete_user svc (UserModel.uuid u) w1 = (Ok (), w2))
  ∧ (∀ l rest w1 u w2,
       UserService.get_users svc (Some (IdUuid user_id)) (world rt)
       = (Ok (PyList (Ref l :: rest)), w1) →
       objects w1 !! l = Some u →
       UserService.delete_user svc (UserModel.uuid u) w1 = (Ok (), w2) →
       DELETE_user svc user_id rt
       = (mkResponse HTTP_204_NO_CONTENT CEmpty [],
          mkRuntime w2 (trace rt ++ [EvEndpoint "delete_user";
                                     EvGetUsers (Some (IdUuid user_id));
                                     EvDeleteUser (UserModel.uuid u)]))).
Proof.
  split.
  - unfold DELETE_user, delete_user. run_route.
    destruct_lookup svc (Some (IdUuid user_id)) rt Hsvc; simpl;
      try (split; [discriminate|]; intros (?&?&?&?&?&?&?); discriminate).
    destruct (objects w1 !! l) as [u|] eqn:Hl; simpl.
    + destruct (UserService.delete_user svc (UserModel.uuid u) w1)
        as [[[]|[|msg]] w2] eqn:Hdel; simpl.
      * split; [|done]. intros _. by exists l, rest, w1, u, w2.
      * split; [discriminate|]. intros (l'&rest'&w1'&u'&w2'&Heq&Hu&Hd).
        inversion Heq; subst. rewrite Hl in Hu. inversion Hu; subst.
        rewrite Hdel in Hd. discriminate.
      * split; [discriminate|]. intros (l'&rest'&w1'&u'&w2'&Heq&Hu&Hd).
        inversion Heq; subst. rewrite Hl in Hu. inversion Hu; subst.
        rewrite Hdel in Hd. discriminate.
    + split; [discriminate|]. intros (l'&rest'&w1'&u'&w2'&Heq&Hu&Hd).
      inversion Heq; subst. rewrite Hl in Hu. discriminate.
  - intros l rest w1 u w2 Hsvc Hu Hdel.
    unfold DELETE_user, delete_user. run_route.
    rewrite Hsvc. simpl. rewrite Hu. simpl. rewrite Hdel. simpl.
    by rewrite <- !app_assoc.
Qed.

Lemma delete_user_no_content_iff_witness :
  DELETE_user service 17%N rt0
  = (mkResponse HTTP_204_NO_CONTENT CEmpty [],
     mkRuntime (with_store [bob] (set_object 1%nat alice world0))
       [EvEndpoint "delete_user"; EvGetUsers (Some (IdUuid 17%N));
        EvDeleteUser 17%N]).
Proof.
  destruct (delete_user_no_content_iff service 17%N rt0) as [_ H].
  rewrite (H 1%nat [] (set_object 1%nat alice world0) alice
             (with_store [bob] (set_object 1%nat alice world0)));
    [reflexivity | vm_compute; reflexivity | vm_compute; reflexivity
    | vm_compute; reflexivity].
Defined.

(** X7.  [delete_user] looks the path's UUID up and then calls the
    service's delete at most once, and what it does is decided by the
    answers.  If the lookup fails, the failure is raised on; if it returns
    a false value, 404 is raised; in both cases the session is the one the
    lookup left, so nothing was deleted.  If it returns a list of records,
    the service's delete is called on that session with the uuid attribute
    of the first record, not with the path parameter, and the session
    afterwards is the one this one call left: the handler returns if the
    call returns, raises 400 if it raises [NoResultFound] and raises any
    other error on. *)
Theorem delete_user_call_discipline {D} (svc : UserService.t D)
    (user_id : UUID) (rt : Runtime D) :
  (∀ e w1,
     UserService.get_users svc (Some (IdUuid user_id)) (world rt)
     = (Failed e, w1) →
     delete_user svc user_id rt
     = (Raise (StoreError e),
        mkRuntime w1 (trace rt ++ [EvGetUsers (Some (IdUuid user_id))])))
  ∧ (∀ existing_user w1,
       UserService.get_users svc (Some (IdUuid user_id)) (world rt)
       = (Ok existing_user, w1) →
       truthy existing_user = false →
       delete_user svc user_id rt
       = (Raise (HTTPException HTTP_404_NOT_FOUND "User not found" []),
          mkRuntime w1 (trace rt ++ [EvGetUsers (Some (IdUuid user_id))])))
  ∧ (∀ l rest w1 u res w2,
       UserService.get_users svc (Some (IdUuid user_id)) (world rt)
       = (Ok (PyList (Ref l :: rest)), w1) →
       objects w1 !! l = Some u →
       UserService.delete_user svc (UserModel.uuid u) w1 = (res, w2) →
       delete_user svc user_id rt
       = (match res with
          | Ok _ => Return RNone
          | Failed NoResultFound =>
              Raise (HTTPException HTTP_400_BAD_REQUEST
                       "Failed to delete user" [])
          | Failed (OtherStoreError msg) =>
              Raise (StoreError (OtherStoreError msg))
          end,
          mkRuntime w2 (trace rt ++ [EvGetUsers (Some (IdUuid user_id));
                                     EvDeleteUser (UserModel.uuid u)])))
  ∧ (∃ tail,
       trace (delete_user svc user_id rt).2
       = (trace rt ++ EvGetUsers (Some (IdUuid user_id)) :: tail)%list
       ∧ (tail = []
          ∨ ∃ l rest w1 u,
              UserService.get_users svc (Some (IdUuid user_id)) (world rt)
              = (Ok (PyList (Ref l :: rest)), w1)
              ∧ objects w1 !! l = Some u
              ∧ tail = [EvDeleteUser (UserModel.uuid u)])).
Proof.
  split; [|split; [|split]].
  - intros e w1 Hsvc. unfold delete_user. unfold_monad. by rewrite Hsvc.
  - intros existing_user w1 Hsvc Hf. unfold delete_user. unfold_monad.
    rewrite Hsvc. by rewrite Hf.
  - intros l rest w1 u res w2 Hsvc Hu Hdel.
    unfold delete_user. unfold_monad. rewrite Hsvc. simpl. rewrite Hu. simpl.
    rewrite Hdel. rewrite <- !app_assoc.
    by destruct res as [[]|[|msg]].
  - unfold delete_user. unfold_monad.
    destruct_lookup svc (Some (IdUuid user_id)) rt Hsvc; simpl;
      try (exists []; split; [done|by left]).
    destruct (objects w1 !! l) as [u|] eqn:Hl; simpl.
    + exists [EvDeleteUser (UserModel.uuid u)].
      split; [|right; by exists l, rest, w1, u].
      destruct (UserService.delete_user svc (UserModel.uuid u) w1)
        as [[[]|[|msg]] w2]; simpl; by rewrite <- app_assoc.
    + exists []. split; [done|by left].
Qed.

Lemma delete_user_call_discipline_witness :
  delete_user service 17%N rt0
  = (Return RNone,
     mkRuntime (with_store [bob] (set_object 1%nat alice world0))
       [EvGetUsers (Some (IdUuid 17%N)); EvDeleteUser 17%N])
  ∧ delete_user service 18%N rt0
    = (Raise (HTTPException HTTP_404_NOT_FOUND "User not found" []),
       mkRuntime world0 [EvGetUsers (Some (IdUuid 18%N))])
  ∧ delete_user Fixtures.failing_service 17%N rt0
    = (Raise (StoreError (OtherStoreError "down")),
       mkRuntime world0 [EvGetUsers (Some (IdUuid 17%N))]).
Proof.
  destruct (delete_user_call_discipline service 17%N rt0) as (_ & _ & Hfound & _).
  destruct (delete_user_call_discipline service 18%N rt0) as (_ & Hnone & _).
  destruct (delete_user_call_discipline Fixtures.failing_service 17%N rt0)
    as (Hfail & _).
  split; [|split].
  - apply (Hfound 1%nat [] (set_object 1%nat alice world0) alice (Ok ())
             (with_store [bob] (set_object 1%nat alice world0)));
      vm_compute; reflexivity.
  - apply (Hnone (PyList []) world0); vm_compute; reflexivity.
  - apply (Hfail (OtherStoreError "down") world0). reflexivity.
Defined.

(** *** Errors of the persistence layer *)

(** X8.  When the first service call of a handler fails, whatever the
    error, the request is answered 500 and the handler does nothing more.
    This holds for listing, updating, deleting and logging in; for deleting
    it holds also when the lookup fails with [NoResultFound], which is
    turned into 400 only when the delete call raises it. *)
Theorem store_failure_of_first_call_is_500 {D} (constants : Settings)
    (svc : UserService.t D)
    (jwt_encode : gmap string claim → string → string → string)
    (rt : Runtime D) (e : store_error) (w1 : World D) :
  (UserService.get_users svc None (world rt) = (Failed e, w1) →
   GET_users svc rt
   = (internal_server_error,
      mkRuntime w1 (trace rt ++ [EvEndpoint "get_users"; EvGetUsers None])))
  ∧ (∀ user_id user,
       UserService.get_users svc (Some (IdInt user_id)) (world rt)
       = (Failed e, w1) →
       PUT_user svc user_id user rt
       = (internal_server_error,
          mkRuntime w1 (trace rt ++ [EvEndpoint "update_user";
                                     EvGetUsers (Some (IdInt user_id))])))
  ∧ (∀ user_id,
       UserService.get_users svc (Some (IdUuid user_id)) (world rt)
       = (Failed e, w1) →
       DELETE_user svc user_id rt
       = (internal_server_error,
          mkRuntime w1 (trace rt ++ [EvEndpoint "delete_user";
                                     EvGetUsers (Some (IdUuid user_id))])))
  ∧ (∀ form_data,
       UserService.verify_user svc (LoginForm.username form_data)
         (LoginForm.password form_data) (world rt) = (Failed e, w1) →
       POST_login constants svc jwt_encode form_data rt
       = (internal_server_error,
          mkRuntime w1
            (trace rt ++ [EvEndpoint "login";
                          EvVerifyUser (LoginForm.username form_data)
                                       (LoginForm.password form_data)]))).
Proof.
  unfold internal_server_error. split; [|split; [|split]].
  - intros Hsvc. unfold GET_users, get_users. run_route. rewrite Hsvc. simpl.
    by rewrite <- app_assoc.
  - intros user_id user Hsvc. unfold PUT_user, update_user. run_route.
    rewrite Hsvc. simpl. by rewrite <- app_assoc.
  - intros user_id Hsvc. unfold DELETE_user, delete_user. run_route.
    rewrite Hsvc. simpl. by rewrite <- app_assoc.
  - intros form_data Hsvc. unfold POST_login, login. run_route.
    rewrite Hsvc. simpl. by rewrite <- app_assoc.
Qed.

Lemma store_failure_of_first_call_is_500_witness :
  (GET_users Fixtures.failing_service rt0).1 = internal_server_error
  ∧ (PUT_user Fixtures.failing_service 1 rename_alice rt0).1 = internal_server_error
  ∧ (DELETE_user Fixtures.failing_service 17%N rt0).1 = internal_server_error
  ∧ (POST_login settings0 Fixtures.failing_service toy_encode
       (LoginForm.Build "a@x.com" "p") rt0).1 = internal_server_error.
Proof.
  destruct (store_failure_of_first_call_is_500 settings0 Fixtures.failing_service
              toy_encode rt0 (OtherStoreError "down") world0)
    as (H1 & H2 & H3 & H4).
  split; [|split; [|split]].
  - by rewrite (H1 eq_refl).
  - by rewrite (H2 1 rename_alice eq_refl).
  - by rewrite (H3 17%N eq_refl).
  - by rewrite (H4 (LoginForm.Build "a@x.com" "p") eq_refl).
Defined.

(** X9.  After a successful lookup, a failure of the write is answered 500:
    any error of the service's update, and any error of the service's
    delete other than [NoResultFound].  In the update case the object in
    the session has been assigned to by then. *)
Theorem store_failure_of_write_is_500 {D} (svc : UserService.t D)
    (rt : Runtime D) (l : loc) (rest : list ref) (w1 w2 : World D)
    (old : UserModel.t) :
  objects w1 !! l = Some old →
  (∀ user_id user e,
     UserService.get_users svc (Some (IdInt user_id)) (world rt)
     = (Ok (PyList (Ref l :: rest)), w1) →
     UserService.update_user svc (PyObj (Ref l))
       (set_object l (partial_update user old) w1) = (Failed e, w2) →
     PUT_user svc user_id user rt
     = (internal_server_error,
        mkRuntime w2 (trace rt ++ [EvEndpoint "update_user";
                                   EvGetUsers (Some (IdInt user_id));
                                   EvUpdateUser (PyObj (Ref l))])))
  ∧ (∀ user_id msg,
       UserService.get_users svc (Some (IdUuid user_id)) (world rt)
       = (Ok (PyList (Ref l :: rest)), w1) →
       UserService.delete_user svc (UserModel.uuid old) w1
       = (Failed (OtherStoreError msg), w2) →
       DELETE_user svc user_id rt
       = (internal_server_error,
          mkRuntime w2 (trace rt ++ [EvEndpoint "delete_user";
                                     EvGetUsers (Some (IdUuid user_id));
                                     EvDeleteUser (UserModel.uuid old)]))).
Proof.
  intros Hold. unfold internal_server_error. split.
  - intros user_id user e Hsvc Hupd.
    pose proof (update_user_assignments svc user_id user
                  (entered "update_user" rt) l rest w1 old Hsvc Hold) as Hrun.
    unfold mbind, M_bind, call in Hrun. simpl in Hrun. rewrite Hupd in Hrun.
    rewrite <- !app_assoc in Hrun. simpl in Hrun.
    exact (route_raise "update_user" HTTP_200_OK _ rt (StoreError e) _ Hrun).
  - intros user_id msg Hsvc Hdel. unfold DELETE_user, delete_user. run_route.
    rewrite Hsvc. simpl. rewrite Hold. simpl. rewrite Hdel. simpl.
    by rewrite <- !app_assoc.
Qed.

Lemma store_failure_of_write_is_500_witness :
  (PUT_user Fixtures.write_failing_service 1 rename_alice rt0).1
  = internal_server_error
  ∧ (DELETE_user Fixtures.write_failing_service 17%N rt0).1
    = internal_server_error.
Proof.
  destruct (store_failure_of_write_is_500 Fixtures.write_failing_service rt0
              1%nat [] (set_object 1%nat alice world0)
              (set_object 1%nat alice_renamed world0) alice)
    as [Hput _]; [vm_compute; reflexivity|].
  destruct (store_failure_of_write_is_500 Fixtures.write_failing_service rt0
              1%nat [] (set_object 1%nat alice world0)
              (set_object 1%nat alice world0) alice)
    as [_ Hdel]; [vm_compute; reflexivity|].
  split.
  - rewrite (Hput 1 rename_alice (OtherStoreError "read-only"));
      [reflexivity | vm_compute; reflexivity | vm_compute; reflexivity].
  - rewrite (Hdel 17%N "read-only");
      [reflexivity | vm_compute; reflexivity | vm_compute; reflexivity].
Defined.

(** *** The guard of the protected route *)

(** X10.  Whatever the dependency of the protected route is: when it
    raises, the response is that of the exception, the endpoint function is
    not entered, and the session is left as the dependency left it. *)
Theorem protected_route_blocked_when_dependency_raises {D A}
    (dependency : M D A) (rt : Runtime D) (e : exn) (rt1 : Runtime D) :
  dependency rt = (Raise e, rt1) →
  GET_protected_route_with dependency rt = (error_response e, rt1).
Proof.
  intros Hd. unfold GET_protected_route_with, protected_route. run_route.
  by rewrite Hd.
Qed.

Lemma protected_route_blocked_when_dependency_raises_witness :
  GET_protected_route_with (Fixtures.forbidden (A := ref)) rt0
  = (mkResponse 403 (CDict [("detail", "Forbidden")]) [], rt0).
Proof.
  apply (protected_route_blocked_when_dependency_raises
           (Fixtures.forbidden (A := ref)) rt0
           (HTTPException 403 "Forbidden" []) rt0).
  reflexivity.
Defined.

(** *** More on the settings *)

Section SettingsCalls.

Variable read_field : gmap string string → string → option string.
Variable validate_int : string → option Z.

Local Abbreviation calls := (get_settings_calls read_field validate_int).
Local Abbreviation init := (Settings_init read_field validate_int).

Lemma calls_after_success environs c obj :
  cache c = Some obj →
  calls environs c = (replicate (length environs) (Return obj), c).
Proof.
  intros Hc. induction environs as [|environ environs IH]; simpl; [done|].
  unfold get_settings. rewrite Hc. by rewrite IH.
Qed.

Lemma calls_while_failing environs c :
  Forall (λ environ, init environ = Raise ValidationError) environs →
  cache c = None →
  calls environs c
  = (replicate (length environs) (Raise ValidationError),
     mkConfig (env_reads c + length environs) None).
Proof.
  intros Hfail. revert c.
  induction Hfail as [|environ environs Hinit _ IH]; intros c Hc; simpl.
  - destruct c as [n o]. simpl in *. subst. by rewrite Nat.add_0_r.
  - unfold get_settings. rewrite Hc, Hinit. rewrite IH by done. simpl.
    do 3 f_equal. lia.
Qed.

End SettingsCalls.

(** X11.  [get_settings] caches the first success and nothing else.  In a
    sequence of calls starting with an empty cache, every call made while
    [Settings()] still fails reads the environment again and raises; the
    first call that succeeds is the last to read the environment; it and
    every later call return the object made then, whatever the environment
    has become. *)
Theorem get_settings_caches_first_success
    (read_field : gmap string string → string → option string)
    (validate_int : string → option Z)
    (failing : list (gmap string string)) (environ : gmap string string)
    (later : list (gmap string string)) (s : Settings) :
  Forall (λ environ, Settings_init read_field validate_int environ
                     = Raise ValidationError) failing →
  Settings_init read_field validate_int environ = Return s →
  get_settings_calls read_field validate_int
    (failing ++ environ :: later) config_initial
  = ((replicate (length failing) (Raise ValidationError)
      ++ replicate (S (length later)) (Return (length failing, s)))%list,
     mkConfig (S (length failing)) (Some (length failing, s))).
Proof.
  intros Hfail Hok.
  assert (∀ xs ys c,
            get_settings_calls read_field validate_int (xs ++ ys) c
            = let '(r1, c1) := get_settings_calls read_field validate_int xs c in
              let '(r2, c2) := get_settings_calls read_field validate_int ys c1 in
              ((r1 ++ r2)%list, c2)) as Happ.
  { induction xs as [|x xs IH]; intros ys c; simpl.
    - by destruct (get_settings_calls _ _ ys c).
    - destruct (get_settings read_field validate_int x c) as [r c1].
      rewrite IH.
      destruct (get_settings_calls _ _ xs c1) as [r1 c2].
      by destruct (get_settings_calls _ _ ys c2). }
  rewrite Happ.
  rewrite (calls_while_failing read_field validate_int failing config_initial Hfail)
    by done.
  simpl. unfold get_settings at 1. simpl. rewrite Hok.
  rewrite (calls_after_success read_field validate_int later _
             (length failing, s)) by done.
  done.
Qed.

Lemma get_settings_caches_first_success_witness :
  get_settings_calls read0 validate0
    [Fixtures.environ_no_secret; ∅; environ0; ∅; Fixtures.environ_no_secret]
    config_initial
  = ([Raise ValidationError; Raise ValidationError;
      Return (2%nat, settings0); Return (2%nat, settings0);
      Return (2%nat, settings0)],
     mkConfig 3 (Some (2%nat, settings0))).
Proof.
  apply (get_settings_caches_first_success read0 validate0
           [Fixtures.environ_no_secret; ∅] environ0
           [∅; Fixtures.environ_no_secret] settings0).
  - repeat constructor.
  - vm_compute; reflexivity.
Defined.

(** X12.  Importing [app.config] succeeds exactly when the environment
    gives all four settings and the token lifetime validates as an
    integer; [constants] then holds these four values, the environment has
    been read once and the object is cached.  There are no defaults. *)
Theorem import_config_requires_all_settings
    (read_field : gmap string string → string → option string)
    (validate_int : string → option Z)
    (environ : gmap string string) (obj : SettingsObj) (c : ConfigState) :
  import_config read_field validate_int environ = Some (obj, c) ↔
  ∃ raw,
    read_field environ "PG_DATABASE_URL" = Some (PG_DATABASE_URL obj.2)
    ∧ read_field environ "SECRET_KEY" = Some (SECRET_KEY obj.2)
    ∧ read_field environ "ALGORITHM" = Some (ALGORITHM obj.2)
    ∧ read_field environ "ACCESS_TOKEN_EXPIRE_MINUTES" = Some raw
    ∧ validate_int raw = Some (ACCESS_TOKEN_EXPIRE_MINUTES obj.2)
    ∧ obj.1 = 0%nat
    ∧ c = mkConfig 1 (Some obj).
Proof.
  unfold import_config, get_settings, Settings_init. simpl.
  destruct (read_field environ "PG_DATABASE_URL") as [url|];
    destruct (read_field environ "SECRET_KEY") as [key|];
    destruct (read_field environ "ALGORITHM") as [alg|];
    destruct (read_field environ "ACCESS_TOKEN_EXPIRE_MINUTES") as [raw|];
    simpl; try destruct (validate_int raw) as [minutes|] eqn:Hv; simpl;
    (split; [intros H; try discriminate
            | intros (raw' & H1 & H2 & H3 & H4 & H5 & H6 & H7); try discriminate]).
  - inversion H; subst. simpl. by exists raw.
  - inversion H1; inversion H2; inversion H3; inversion H4; subst.
    rewrite Hv in H5. inversion H5. destruct obj as [n [u k a m]]. simpl in *.
    by subst.
  - inversion H4; subst. rewrite Hv in H5. discriminate.
Qed.

Lemma import_config_requires_all_settings_witness :
  import_config read0 validate0 environ0
  = Some ((0%nat, settings0), mkConfig 1 (Some (0%nat, settings0)))
  ∧ import_config read0 validate0 Fixtures.environ_no_secret = None.
Proof.
  split.
  - apply (import_config_requires_all_settings read0 validate0 environ0).
    exists "30". repeat split; vm_compute; reflexivity.
  - destruct (import_config read0 validate0 Fixtures.environ_no_secret)
      as [[obj c]|] eqn:H; [|reflexivity].
    apply (import_config_requires_all_settings read0 validate0) in H
      as (raw & _ & Hkey & _).
    vm_compute in Hkey. discriminate.
Defined.

(** *** The status codes of the routes *)

Lemma deref_all_cases {D} (rs : list ref) (rt : Runtime D) :
  (∃ us, deref_all rs rt = (Return us, rt))
  ∨ (∃ l, deref_all rs rt = (Raise (InvalidReference l), rt)).
Proof.
  induction rs as [|[l] rs IH]; simpl.
  - left. by exists [].
  - unfold mbind, M_bind, getattr.
    destruct (objects (world rt) !! l) as [u|]; [|right; by exists l].
    destruct IH as [[us ->]|[l' ->]]; [left; by exists (u :: us)|right; by exists l'].
Qed.

Lemma serialize_cases {D} (v : retval) (rt : Runtime D) :
  (∃ c, serialize v rt = (Return c, rt))
  ∨ (∃ l, serialize v rt = (Raise (InvalidReference l), rt)).
Proof.
  destruct v as [|[l]|rs|v|kv]; unfold serialize, mbind, M_bind, mret, M_ret.
  - left. by eexists.
  - unfold getattr. destruct (objects (world rt) !! l);
      [left; by eexists | right; by eexists].
  - destruct (deref_all_cases rs rt) as [[us ->]|[l ->]];
      [left; by eexists | right; by eexists].
  - left. by eexists.
  - left. by eexists.
Qed.

(** What a route without dependencies answers once its endpoint function
    has returned: the declared status, or 500 if the value cannot be
    encoded. *)
Lemma route_status_return {D} name code (endpoint : M D retval) rt v rt1 :
  endpoint (entered name rt) = (Return v, rt1) →
  status (route name code [] endpoint rt).1 = code
  ∨ status (route name code [] endpoint rt).1 = 500%nat.
Proof.
  intros He. unfold route, run_dependencies, enter, mbind, M_bind, mret, M_ret.
  fold (entered name rt). rewrite He.
  destruct (serialize_cases v rt1) as [[c ->]|[l ->]]; [by left|by right].
Qed.

Ltac pick_status :=
  solve [ left; reflexivity
        | right; left; reflexivity
        | right; right; left; reflexivity
        | right; right; right; reflexivity
        | right; reflexivity
        | right; right; reflexivity ].

(** X13.  To a request that has passed the framework's validation of path
    and body, the routes answer with these status codes and no others,
    whatever the service does: listing 200 or 500; creating 200 or 500;
    updating 200, 400, 404 or 500; deleting 204, 400, 404 or 500; logging
    in 200, 401 or 500. *)
Theorem status_codes_of_routes {D} (constants : Settings)
    (svc : UserService.t D)
    (jwt_encode : gmap string claim → string → string → string)
    (defaults : World D → Z * UUID)
    (service_add_user : ref → World D → answer ref * World D)
    (rt : Runtime D) :
  (status (GET_users svc rt).1 = 200%nat ∨ status (GET_users svc rt).1 = 500%nat)
  ∧ (∀ user,
       status (POST_user defaults service_add_user user rt).1 = 200%nat
       ∨ status (POST_user defaults service_add_user user rt).1 = 500%nat)
  ∧ (∀ user_id user,
       status (PUT_user svc user_id user rt).1 = 200%nat
       ∨ status (PUT_user svc user_id user rt).1 = 400%nat
       ∨ status (PUT_user svc user_id user rt).1 = 404%nat
       ∨ status (PUT_user svc user_id user rt).1 = 500%nat)
  ∧ (∀ user_id,
       status (DELETE_user svc user_id rt).1 = 204%nat
       ∨ status (DELETE_user svc user_id rt).1 = 400%nat
       ∨ status (DELETE_user svc user_id rt).1 = 404%nat
       ∨ status (DELETE_user svc user_id rt).1 = 500%nat)
  ∧ (∀ form_data,
       status (POST_login constants svc jwt_encode form_data rt).1 = 200%nat
       ∨ status (POST_login constants svc jwt_encode form_data rt).1 = 401%nat
       ∨ status (POST_login constants svc jwt_encode form_data rt).1 = 500%nat).
Proof.
  split; [|split; [|split; [|split]]].
  - unfold GET_users.
    destruct (UserService.get_users svc None (world rt)) as [[result|e] w1]
      eqn:Hsvc.
    + assert (get_users svc (entered "get_users" rt)
              = (Return (if truthy result then retval_of result else RList []),
                 mkRuntime w1 ((trace rt ++ [EvEndpoint "get_users"])
                               ++ [EvGetUsers None]))) as Hrun.
      { unfold get_users. unfold_monad. unfold entered. cbn [world trace].
        rewrite Hsvc. by destruct (truthy result). }
      exact (route_status_return "get_users" HTTP_200_OK _ rt _ _ Hrun).
    + right.
      rewrite (route_raise "get_users" HTTP_200_OK _ rt (StoreError e)
                 (mkRuntime w1 ((trace rt ++ [EvEndpoint "get_users"])
                                ++ [EvGetUsers None]))); [done|].
      unfold get_users. unfold_monad. unfold entered. cbn [world trace].
      by rewrite Hsvc.
  - intros user.
    pose proof (add_user_run defaults service_add_user user
                  (entered "add_user" rt)) as Hrun.
    unfold mbind, M_bind, mret, M_ret, await in Hrun. simpl in Hrun.
    destruct (service_add_user _ _) as [[[added]|e] w1].
    + exact (route_status_return "add_user" HTTP_200_OK _ rt _ _ Hrun).
    + right. unfold POST_user.
      by rewrite (route_raise "add_user" HTTP_200_OK _ rt _ _ Hrun).
  - intros user_id user. unfold PUT_user.
    destruct (UserService.get_users svc (Some (IdInt user_id)) (world rt))
      as [[existing_user|e] w1] eqn:Hsvc.
    + destruct (truthy existing_user) eqn:Ht.
      * destruct existing_user as [|b|n|s|r|[|[l] rest]];
          try (destruct (update_user_not_a_record_list svc user_id user
                           (entered "update_user" rt) _ w1 Hsvc Ht
                           ltac:(discriminate)) as (e & [->| ->] & Hrun);
               right; right; right;
               by rewrite (route_raise "update_user" HTTP_200_OK _ rt _ _ Hrun)).
        destruct (objects w1 !! l) as [old|] eqn:Hl.
        -- pose proof (update_user_assignments svc user_id user
                         (entered "update_user" rt) l rest w1 old Hsvc Hl)
             as Hrun.
           unfold mbind, M_bind, call in Hrun. simpl in Hrun.
           destruct (UserService.update_user svc (PyObj (Ref l)) _)
             as [[updated|e] w2].
           ++ destruct (truthy updated); simpl in Hrun.
              ** destruct (route_status_return "update_user" HTTP_200_OK _ rt
                             _ _ Hrun) as [H|H]; [by left|by right; right; right].
              ** right; left.
                 by rewrite (route_raise "update_user" HTTP_200_OK _ rt _ _ Hrun).
           ++ right; right; right.
              by rewrite (route_raise "update_user" HTTP_200_OK _ rt _ _ Hrun).
        -- right; right; right.
           pose proof (update_user_dangling svc user_id user
                         (entered "update_user" rt) l rest w1 Hsvc Hl) as Hrun.
           by rewrite (route_raise "update_user" HTTP_200_OK _ rt _ _ Hrun).
      * right; right; left.
        rewrite (route_raise "update_user" HTTP_200_OK _ rt
                   (HTTPException HTTP_404_NOT_FOUND "User not found" [])
                   (mkRuntime w1 ((trace rt ++ [EvEndpoint "update_user"])
                                  ++ [EvGetUsers (Some (IdInt user_id))])));
          [done|].
        unfold update_user. unfold_monad. simpl. rewrite Hsvc. by rewrite Ht.
    + right; right; right.
      rewrite (route_raise "update_user" HTTP_200_OK _ rt (StoreError e)
                 (mkRuntime w1 ((trace rt ++ [EvEndpoint "update_user"])
                                ++ [EvGetUsers (Some (IdInt user_id))])));
        [done|].
      unfold update_user. unfold_monad. simpl. by rewrite Hsvc.
  - intros user_id. unfold DELETE_user, delete_user. run_route.
    destruct_lookup svc (Some (IdUuid user_id)) rt Hsvc; simpl;
      try pick_status.
    destruct (objects w1 !! l) as [u|]; simpl; [|pick_status].
    destruct (UserService.delete_user svc (UserModel.uuid u) w1)
      as [[[]|[|msg]] w2]; simpl; pick_status.
  - intros form_data.
    unfold POST_login, login, AuthUtil_create_access_token, timedelta_minutes.
    run_route.
    destruct (UserService.verify_user svc _ _ (world rt)) as [[user|e] w1];
      simpl; [|pick_status].
    destruct user as [|[]|[|p|p]|[|a s]|[l]|[|r rs]]; simpl; try pick_status;
      destruct (Z.leb _ MAX_DELTA_DAYS); simpl; try pick_status.
    destruct (objects w1 !! l); simpl; pick_status.
Qed.
